(** * mariadb_to_mongo.py: a shallow embedding and its properties

    The program copies one MariaDB/MySQL table into a MongoDB collection.
    Its only class, [MariaDBToMongo], holds two nullable handles
    ([self.connection], [self.client]) and five operations that matter:
    [connect], [get_column_names], [get_rows_dict_list], [put_rows] and the
    script body under [if __name__ == "__main__"].

    The embedding follows the Python text.  Exceptions are results
    ([Raise e]); the object fields, the two servers, the wall clock and the
    standard output are threaded through a state-and-exception monad [Py].
    What the third-party drivers do (mariadb, pymongo, bson, datetime,
    decimal) is modelled from their documented behaviour; each such
    definition says so. *)

From Stdlib Require Import ZArith Lia.
From stdpp Require Import base list strings.

Local Open Scope string_scope.
Local Open Scope Z_scope.

(** ** Python values handed over by the mariadb driver *)

(** [decimal.Decimal], finite case: [as_tuple()] gives a sign, the coefficient
    digits (most significant first, no leading zero unless the number is
    zero, written [[0]]) and an exponent.  A DECIMAL(M,D) column (M up to 65)
    never holds NaN or an infinity. *)
Record Decimal := mkDecimal {
  dec_sign : bool;
  dec_digits : list nat;
  dec_exp : Z
}.

(** [datetime.date] *)
Record Date := mkDate { d_year : Z; d_month : Z; d_day : Z }.

(** [datetime.datetime] (naive, as the driver returns it) *)
Record DateTime := mkDateTime {
  year : Z; month : Z; day : Z;
  hour : Z; minute : Z; second : Z; microsecond : Z
}.

(** [datetime.timedelta] *)
Record Timedelta := mkTimedelta { td_days : Z; td_seconds : Z; td_microseconds : Z }.

(** [bson.decimal128.Decimal128]: an IEEE 754-2008 decimal128 datum, kept as
    the sign, coefficient digits and exponent it encodes. *)
Record Dec128 := mkDec128 {
  d128_sign : bool;
  d128_digits : list nat;
  d128_exp : Z
}.

Inductive Value :=
| VNone
| VBool (b : bool)
| VInt (n : Z)
| VFloat (bits : Z)               (* the 64 bits of a Python float *)
| VStr (s : string)
| VBytes (b : list Z)
| VDecimal (d : Decimal)
| VDate (d : Date)
| VDatetime (dt : DateTime)
| VTimedelta (td : Timedelta)
| VDecimal128 (x : Dec128)
| VOther (cls : string) (repr : string).
  (* an instance of any other class, one that derives from none of the above *)

(** The classes of those values and the part of Python's class hierarchy
    that [isinstance] consults: [bool] derives from [int] and
    [datetime.datetime] derives from [datetime.date]. *)
Inductive PyClass :=
| cls_NoneType | cls_bool | cls_int | cls_float | cls_str | cls_bytes
| cls_Decimal | cls_date | cls_datetime | cls_timedelta | cls_Decimal128
| cls_other (name : string).

#[global] Instance PyClass_eq_dec : EqDecision PyClass.
Proof. solve_decision. Defined.

Definition type_of (v : Value) : PyClass :=
  match v with
  | VNone => cls_NoneType
  | VBool _ => cls_bool
  | VInt _ => cls_int
  | VFloat _ => cls_float
  | VStr _ => cls_str
  | VBytes _ => cls_bytes
  | VDecimal _ => cls_Decimal
  | VDate _ => cls_date
  | VDatetime _ => cls_datetime
  | VTimedelta _ => cls_timedelta
  | VDecimal128 _ => cls_Decimal128
  | VOther c _ => cls_other c
  end.

Definition base_class (c : PyClass) : option PyClass :=
  match c with
  | cls_bool => Some cls_int
  | cls_datetime => Some cls_date
  | _ => None                     (* directly under [object] *)
  end.

Definition issubclass (c1 c2 : PyClass) : bool :=
  bool_decide (c1 = c2) || bool_decide (base_class c1 = Some c2).

Definition isinstance (v : Value) (c : PyClass) : bool :=
  issubclass (type_of v) c.

(** ** Exceptions and results *)

Inductive Exn :=
| MariaDBError (msg : string)     (* mariadb.Error and its subclasses *)
| AttributeError (msg : string)
| IndexError (msg : string)
| TypeError (msg : string)
| DecimalInexact                  (* decimal.Inexact *)
| DecimalOverflow                 (* decimal.Overflow *)
| PyMongoError (msg : string)     (* pymongo.errors.PyMongoError and below *)
| SystemExit (code : Z).

Inductive Result (A : Type) :=
| Ok (a : A)
| Raise (e : Exn).
Arguments Ok {A} a.
Arguments Raise {A} e.

(** ** bson.decimal128 *)

Module Dec128Ctx.
(** The context bson validates with: prec=34, Emin=-6143, Emax=6144,
    clamp=1, traps on InvalidOperation, Overflow and Inexact. *)
Definition prec : Z := 34.
Definition Emin : Z := -6143.
Definition Emax : Z := 6144.
Definition Etiny : Z := Emin - prec + 1.
Definition Etop : Z := Emax - prec + 1.
End Dec128Ctx.

Definition all_zeros (l : list nat) : bool := forallb (Nat.eqb 0) l.

(** [coeff or '0'] *)
Definition or_zero (coeff : list nat) : list nat :=
  match coeff with
  | [] => [O]
  | _ => coeff
  end.

Definition is_zero (d : Decimal) : bool :=
  match dec_digits d with
  | [O] => true
  | _ => false
  end.

(** [Decimal128(value)] for a finite [decimal.Decimal]: the value is passed
    through [create_decimal] of the context above, which rounds it to the
    context and raises when a trapped signal occurs; the outcome is then
    stored.  Cases, in the order the decimal module takes them: a zero only
    has its exponent clamped; a number whose adjusted exponent exceeds Emax
    overflows; a number with more digits than the precision (or an exponent
    below Etiny) is rounded, which is an error as soon as a non-zero digit
    is dropped; a number whose exponent exceeds Etop is padded with zeros
    (clamp); anything else is stored as it is. *)
Definition Decimal128 (d : Decimal) : Result Dec128 :=
  let digits := dec_digits d in
  let len := Z.of_nat (length digits) in
  if is_zero d then
    Ok (mkDec128 (dec_sign d) [O]
          (Z.min (Z.max (dec_exp d) Dec128Ctx.Etiny) Dec128Ctx.Etop))
  else
    let exp_min := len + dec_exp d - Dec128Ctx.prec in
    if Dec128Ctx.Etop <? exp_min then Raise DecimalOverflow
    else
      let exp_min := Z.max exp_min Dec128Ctx.Etiny in
      if dec_exp d <? exp_min then
        let kept := Z.to_nat (len + dec_exp d - exp_min) in
        if all_zeros (drop kept digits) then
          Ok (mkDec128 (dec_sign d)
                (or_zero (take kept digits)) exp_min)
        else Raise DecimalInexact
      else if Dec128Ctx.Etop <? dec_exp d then
        Ok (mkDec128 (dec_sign d)
              (digits ++ replicate (Z.to_nat (dec_exp d - Dec128Ctx.Etop)) O)
              Dec128Ctx.Etop)
      else Ok (mkDec128 (dec_sign d) digits (dec_exp d)).

(** [Decimal128.to_decimal()] *)
Definition to_decimal (x : Dec128) : Decimal :=
  mkDecimal (d128_sign x) (d128_digits x) (d128_exp x).

(** ** The two servers, as the drivers show them *)

(** One line of INFORMATION_SCHEMA.COLUMNS. *)
Record ColumnEntry := mkColumn {
  TABLE_SCHEMA : string;
  TABLE_NAME : string;
  COLUMN_NAME : string
}.

Abbreviation Row := (list Value).

Record Table := mkTable {
  tbl_schema : string;
  tbl_name : string;
  tbl_rows : list Row               (* in the order a full scan returns them *)
}.

(** The source server: whether it lets a login through (an error message if
    not), the catalog lines visible to the user, in catalog order, and the
    tables. *)
Record MariaDB := mkMariaDB {
  login_error : string -> string -> string -> string -> option string;
  COLUMNS : list ColumnEntry;
  tables : list Table
}.

(** What [mariadb.connect] returns: a handle bound to its default database. *)
Record Connection := mkConnection { conn_database : string }.

(** A document is a Python dict with string keys: insertion-ordered, one
    entry per key. *)
Abbreviation Document := (list (string * Value)).

(** The target server: the documents written so far (oldest first, each with
    its database and collection, as the Python dict pymongo encodes for it,
    [_id] first; what BSON then makes of a value, a datetime keeping its
    milliseconds only, is not modelled), whether a URI is acceptable to
    [MongoClient], for a batch, whether the write fails and after how many
    documents, and the ObjectId (its hex digits) that pymongo generates for
    the [n]-th document filed, should that document have no [_id] of its
    own. *)
Record MongoDB := mkMongoDB {
  uri_error : string -> option string;
  write_error : string -> string -> list Document -> option (nat * string);
  written : list (string * string * Document);
  object_ids : nat -> string
}.

Record MongoClient := mkMongoClient { client_uri : string }.

(** pymongo's InsertManyResult, reduced to the number of inserted ids. *)
Record InsertManyResult := mkInsertManyResult { inserted_count : nat }.

(** ** Program state and the monad *)

Record State := mkState {
  self_connection : option Connection;     (* self.connection *)
  self_client : option MongoClient;        (* self.client *)
  mariadb_server : MariaDB;
  mongo_server : MongoDB;
  utc_clock : nat -> DateTime;             (* the n-th reading of the clock *)
  clock_reads : nat;
  stdout : list string
}.

Definition Py (A : Type) : Type := State -> Result A * State.

Definition ret {A} (a : A) : Py A := fun s => (Ok a, s).

Definition raise {A} (e : Exn) : Py A := fun s => (Raise e, s).

Definition bind {A B} (m : Py A) (k : A -> Py B) : Py B :=
  fun s =>
    match m s with
    | (Ok a, s') => k a s'
    | (Raise e, s') => (Raise e, s')
    end.

Notation "x <- m ;; k" := (bind m (fun x => k))
  (at level 62, m at next level, right associativity).

Definition lift {A} (r : Result A) : Py A := fun s => (r, s).

(** [try: body except mariadb.Error as err: handler(err)] *)
Definition try_except_mariadb {A} (body : Py A) (handler : string -> Py A) : Py A :=
  fun s =>
    match body s with
    | (Raise (MariaDBError err), s') => handler err s'
    | r => r
    end.

(** [for x in xs: acc = body x acc], the locals the body rebinds or mutates
    being carried in [acc]. *)
Fixpoint for_in {A B} (xs : list A) (body : A -> B -> Py B) (acc : B) : Py B :=
  match xs with
  | [] => ret acc
  | x :: xs' => acc' <- body x acc ;; for_in xs' body acc'
  end.

(** [l[i]] *)
Definition getitem {A} (l : list A) (i : nat) : Py A :=
  match l !! i with
  | Some a => ret a
  | None => raise (IndexError "list index out of range")
  end.

(** [d[k] = v] on a dict: a present key keeps its place and takes the new
    value, a new key goes last. *)
Fixpoint dict_set (d : Document) (k : string) (v : Value) : Document :=
  match d with
  | [] => [(k, v)]
  | (k', v') :: d' =>
      if decide (k' = k) then (k', v) :: d' else (k', v') :: dict_set d' k v
  end.

(** [d.get(k)] on a dict. *)
Definition dict_get (d : Document) (k : string) : option Value :=
  match list_find (fun p => p.1 = k) d with
  | Some (_, (_, v)) => Some v
  | None => None
  end.

(** The dict without its entry for [k]. *)
Definition dict_del (d : Document) (k : string) : Document :=
  filter (fun p => p.1 <> k) d.

Definition set_connection (c : option Connection) : Py unit :=
  fun s => (Ok tt, mkState c (self_client s) (mariadb_server s) (mongo_server s)
                     (utc_clock s) (clock_reads s) (stdout s)).

Definition set_client (c : option MongoClient) : Py unit :=
  fun s => (Ok tt, mkState (self_connection s) c (mariadb_server s) (mongo_server s)
                     (utc_clock s) (clock_reads s) (stdout s)).

Definition print (line : string) : Py unit :=
  fun s => (Ok tt, mkState (self_connection s) (self_client s) (mariadb_server s)
                     (mongo_server s) (utc_clock s) (clock_reads s)
                     (stdout s ++ [line])).

(** [datetime.datetime.utcnow()]: one more reading of the clock. *)
Definition utcnow : Py DateTime :=
  fun s => (Ok (utc_clock s (clock_reads s)),
            mkState (self_connection s) (self_client s) (mariadb_server s)
              (mongo_server s) (utc_clock s) (S (clock_reads s)) (stdout s)).

(** ** The mariadb driver *)

(** [mariadb.connect(user=, password=, host=, database=)] *)
Definition mariadb_connect (user password host database : string) : Py Connection :=
  fun s =>
    match login_error (mariadb_server s) host database user password with
    | Some err => (Raise (MariaDBError err), s)
    | None => (Ok (mkConnection database), s)
    end.

(** [self.connection.cursor()]: an attribute of [None] cannot be read. *)
Definition connection_cursor : Py Connection :=
  fun s =>
    match self_connection s with
    | Some c => (Ok c, s)
    | None => (Raise (AttributeError "'NoneType' object has no attribute 'cursor'"), s)
    end.

(** [execute] of the catalog query
    [select COLUMN_NAME from INFORMATION_SCHEMA.COLUMNS where TABLE_NAME='{}']
    with the table name filled in (a plain identifier, [plain_identifier]
    below; a name holding a quote would end the literal early): one 1-tuple per
    catalog line whose TABLE_NAME is that name (names compared as equal
    strings), in catalog order.  The query has no condition on TABLE_SCHEMA,
    so the cursor's database plays no part. *)
Definition execute_select_column_names (c : Connection) (table_name : string)
  : Py (list (list string)) :=
  fun s =>
    (Ok (map (fun e => [COLUMN_NAME e])
           (filter (fun e => TABLE_NAME e = table_name) (COLUMNS (mariadb_server s)))),
     s).

(** [cursor.close()] releases the cursor; nothing the program looks at
    afterwards depends on it. *)
Definition handle_close : Py unit := ret tt.

(** [self.connection.close()]: releases the handle; on [None] the attribute
    [close] cannot be read. *)
Definition connection_close : Py unit :=
  fun s =>
    match self_connection s with
    | Some _ => (Ok tt, s)
    | None => (Raise (AttributeError "'NoneType' object has no attribute 'close'"), s)
    end.

(** [self.client.close()], likewise. *)
Definition client_close : Py unit :=
  fun s =>
    match self_client s with
    | Some _ => (Ok tt, s)
    | None => (Raise (AttributeError "'NoneType' object has no attribute 'close'"), s)
    end.

Definition find_table (srv : MariaDB) (database table_name : string) : option Table :=
  list_find (fun t => tbl_schema t = database /\ tbl_name t = table_name) (tables srv)
  ≫= (fun p => Some p.2).

(** [execute] of [SELECT * FROM {}] with the table name filled in, for a
    name that is a plain identifier ([plain_identifier] below): the rows of
    that table of the connection's database, or error 1146 when there is no
    such table.  A qualified or quoted name, which SQL would read
    otherwise, is not covered. *)
Definition execute_select_all (c : Connection) (table_name : string) : Py (list Row) :=
  fun s =>
    match find_table (mariadb_server s) (conn_database c) table_name with
    | Some t => (Ok (tbl_rows t), s)
    | None =>
        (Raise (MariaDBError
                  ("Table '" +:+ conn_database c +:+ "." +:+ table_name +:+ "' doesn't exist")),
         s)
    end.

(** ** pymongo *)

(** [MongoClient(uri)]: the URI is parsed at once, the server is contacted
    only by the first operation. *)
Definition new_MongoClient (uri : string) : Py MongoClient :=
  fun s =>
    match uri_error (mongo_server s) uri with
    | Some err => (Raise (PyMongoError err), s)
    | None => (Ok (mkMongoClient uri), s)
    end.

(** A document as [insert_many] sends it: a document without [_id] gets a
    freshly generated ObjectId under that key, and [_id] travels first. *)
Definition with_id (doc : Document) (fresh : string) : Document :=
  match dict_get doc "_id" with
  | Some v => ("_id", v) :: dict_del doc "_id"
  | None => ("_id", VOther "ObjectId" fresh) :: doc
  end.

(** A batch as it is filed in a target: each document with its [_id], the
    generated ones numbered on from the documents the target already
    holds. *)
Definition filed (tgt : MongoDB) (db collection : string) (docs : list Document)
  : list (string * string * Document) :=
  imap (fun j d => (db, collection,
                    with_id d (object_ids tgt (length (written tgt) + j))))
    docs.

Definition server_write (db collection : string) (docs : list Document) : Py unit :=
  fun s =>
    let m := mongo_server s in
    (Ok tt, mkState (self_connection s) (self_client s) (mariadb_server s)
              (mkMongoDB (uri_error m) (write_error m)
                 (written m ++ filed m db collection docs)%list
                 (object_ids m))
              (utc_clock s) (clock_reads s) (stdout s)).

(** [collection.insert_many(documents)]: pymongo refuses an empty list
    before it contacts the server ("documents must be a non-empty list");
    it gives every document that has none an [_id]; an ordered batch stops
    at the first document the server rejects. *)
Definition insert_many (db collection : string) (documents : list Document)
  : Py InsertManyResult :=
  match documents with
  | [] => raise (TypeError "documents must be a non-empty list")
  | _ =>
      fun s =>
        match write_error (mongo_server s) db collection documents with
        | Some (k, err) =>
            (_ <- server_write db collection (take k documents) ;;
             raise (PyMongoError err)) s
        | None =>
            (_ <- server_write db collection documents ;;
             ret (mkInsertManyResult (length documents))) s
        end
  end.

(** ** class MariaDBToMongo *)

(** [__init__]: both handles start as [None]. *)
Definition init (src : MariaDB) (tgt : MongoDB) (clock : nat -> DateTime) : State :=
  mkState None None src tgt clock O [].

(** [connect] (lines 48-73) *)
Definition connect (host database user password : string) : Py unit :=
  try_except_mariadb
    (c <- mariadb_connect user password host database ;;
     set_connection (Some c))
    (fun err => print err).

(** [open_client] (lines 75-76) *)
Definition open_client (uri : string) : Py unit :=
  c <- new_MongoClient uri ;;
  set_client (Some c).

(** [close_client], [close_connection] and [close] (lines 78-98) *)
Definition close_client : Py unit :=
  _ <- client_close ;;
  set_client None.

Definition close_connection : Py unit :=
  _ <- connection_close ;;
  set_connection None.

Definition close : Py unit :=
  fun s =>
    (_ <- (if self_connection s is Some _ then close_connection else ret tt) ;;
     fun s' => (if self_client s' is Some _ then close_client else ret tt) s') s.

(** [get_column_names] (lines 100-126) *)
Definition get_column_names (table_name : string) : Py (list string) :=
  let _col_list : list string := [] in
  _c <- connection_cursor ;;
  rows <- execute_select_column_names _c table_name ;;
  _col_list <- for_in rows
    (fun row _col_list => name <- getitem row 0 ;; ret (_col_list ++ [name])%list)
    _col_list ;;
  _ <- handle_close ;;
  ret _col_list.

(** The attributes [year], [month] and [day], which [datetime.date] has and
    [datetime.datetime] inherits. *)
Definition value_year (v : Value) : Py Z :=
  match v with
  | VDate d => ret (d_year d)
  | VDatetime dt => ret (year dt)
  | _ => raise (AttributeError "year")
  end.

Definition value_month (v : Value) : Py Z :=
  match v with
  | VDate d => ret (d_month d)
  | VDatetime dt => ret (month dt)
  | _ => raise (AttributeError "month")
  end.

Definition value_day (v : Value) : Py Z :=
  match v with
  | VDate d => ret (d_day d)
  | VDatetime dt => ret (day dt)
  | _ => raise (AttributeError "day")
  end.

(** The constructor [Decimal128(value)] applied to a Python value. *)
Definition new_Decimal128 (v : Value) : Py Value :=
  match v with
  | VDecimal d => x <- lift (Decimal128 d) ;; ret (VDecimal128 x)
  | _ => raise (TypeError "Cannot convert to Decimal128")
  end.

(** The conversion of one value: the [if]/[elif] chain of lines 153-160. *)
Definition normalize (value : Value) : Py Value :=
  if isinstance value cls_Decimal then
    new_Decimal128 value
  else if isinstance value cls_date then
    y <- value_year value ;;
    m <- value_month value ;;
    d <- value_day value ;;
    ret (VDatetime (mkDateTime y m d 0 0 0 0))
  else if isinstance value cls_timedelta then
    now <- utcnow ;;
    ret (VDatetime now)
  else ret value.

(** The body of [for row in cursor] (lines 149-162): one dict per row. *)
Definition row_to_dict (col_names : list string) (row : Row) : Py Document :=
  for_in (seq 0 (length row))
    (fun i row_dict =>
       col_name <- getitem col_names i ;;
       value <- getitem row i ;;
       value <- normalize value ;;
       ret (dict_set row_dict col_name value))
    [].

(** [get_rows_dict_list] (lines 128-163) *)
Definition get_rows_dict_list (table_name : string) : Py (list Document) :=
  col_names <- get_column_names table_name ;;
  cursor <- connection_cursor ;;
  rows <- execute_select_all cursor table_name ;;
  for_in rows
    (fun row rows_dict_list =>
       row_dict <- row_to_dict col_names row ;;
       ret (rows_dict_list ++ [row_dict])%list)
    [].

(** [self.client[db_name]]: subscripting [None] is a TypeError. *)
Definition client_getitem (db_name : string) : Py string :=
  fun s =>
    match self_client s with
    | Some _ => (Ok db_name, s)
    | None => (Raise (TypeError "'NoneType' object is not subscriptable"), s)
    end.

(** [put_rows] (lines 165-189) *)
Definition put_rows (rows : list Document) (db_name collection_name : string)
  : Py InsertManyResult :=
  db <- client_getitem db_name ;;
  insert_many db collection_name rows.

(** [get_put_rows] (lines 191-217) *)
Definition get_put_rows (table_name db_name collection_name : string)
  : Py InsertManyResult :=
  rows <- get_rows_dict_list table_name ;;
  put_rows rows db_name collection_name.

(** ** The script (lines 220-274) *)

(** The parsed command line. *)
Record Args := mkArgs {
  arg_mariadb : string;
  arg_mongodb : string;
  arg_sourcedb : string;
  arg_targetdb : string;
  arg_table : string;
  arg_collection : string;
  arg_user : string;
  arg_password : string
}.

Definition sys_exit (code : Z) : Py unit := raise (SystemExit code).

Definition main (ARGS : Args) : Py unit :=
  let HOST := arg_mariadb ARGS in
  let DATABASE := arg_sourcedb ARGS in
  let USER := arg_user ARGS in
  let PASSWORD := arg_password ARGS in
  let URI := arg_mongodb ARGS in
  let SRCTBL := arg_table ARGS in
  let TARGDB := arg_targetdb ARGS in
  let COLL := arg_collection ARGS in
  _ <- connect HOST DATABASE USER PASSWORD ;;
  _ <- open_client URI ;;
  _ <- get_put_rows SRCTBL TARGDB COLL ;;
  _ <- close ;;
  sys_exit 0.

(** How the interpreter ends: [SystemExit] sets the exit status; any other
    exception that reaches the top level prints a traceback and the status
    is 1. *)
Inductive Outcome :=
| Exited (status : Z)
| Traceback (e : Exn).

Definition exit_status (o : Outcome) : Z :=
  match o with
  | Exited c => c
  | Traceback _ => 1
  end.

(** The script from line 260 on, that is once [PARSER.parse_args()] has
    returned the arguments: a command line that argparse refuses (status 2)
    or answers itself ([-h], status 0) never gets here. *)
Definition run_script (ARGS : Args) (src : MariaDB) (tgt : MongoDB)
    (clock : nat -> DateTime) : Outcome * State :=
  match main ARGS (init src tgt clock) with
  | (Ok _, s) => (Exited 0, s)
  | (Raise (SystemExit c), s) => (Exited c, s)
  | (Raise e, s) => (Traceback e, s)
  end.

(** ** Notions used in the statements *)

(** The number a digit string denotes. *)
Definition digits_value (l : list nat) : Z :=
  fold_left (fun a d => 10 * a + Z.of_nat d) l 0.

(** Two decimals denote the same number: same sign, and equal coefficients
    once both are scaled to the smaller exponent. *)
Definition same_number (d1 d2 : Decimal) : Prop :=
  dec_sign d1 = dec_sign d2 /\
  let m := Z.min (dec_exp d1) (dec_exp d2) in
  digits_value (dec_digits d1) * 10 ^ (dec_exp d1 - m)
  = digits_value (dec_digits d2) * 10 ^ (dec_exp d2 - m).

(** A decimal that decimal128 holds as it is: at most 34 digits and an
    exponent between Etiny and Etop. *)
Definition fits_decimal128 (d : Decimal) : Prop :=
  Z.of_nat (length (dec_digits d)) <= Dec128Ctx.prec /\
  Dec128Ctx.Etiny <= dec_exp d <= Dec128Ctx.Etop.

Definition value_fits (v : Value) : Prop :=
  match v with
  | VDecimal d => fits_decimal128 d
  | _ => True
  end.

(** Midnight of the calendar day of a date. *)
Definition midnight (d : Date) : DateTime :=
  mkDateTime (d_year d) (d_month d) (d_day d) 0 0 0 0.

(** [[normalize v for v in row]], left to right. *)
Fixpoint normalize_all (row : Row) : Py (list Value) :=
  match row with
  | [] => ret []
  | v :: row' =>
      v' <- normalize v ;;
      vs <- normalize_all row' ;;
      ret (v' :: vs)
  end.

(** A table name that SQL reads as one unquoted, unqualified identifier: not
    empty, and made of ASCII letters, digits, [_] and [$] only.  Pasted into
    [SELECT * FROM {}] or between the quotes of the catalog query, such a
    name stands for itself; a name with a dot, a quote, a blank or a
    backtick does not, and the two [execute] models above do not cover
    it. *)
Definition identifier_char (a : Ascii.ascii) : bool :=
  let n := Ascii.nat_of_ascii a in
  ((48 <=? n) && (n <=? 57) || (65 <=? n) && (n <=? 90)
   || (97 <=? n) && (n <=? 122) || (n =? 95) || (n =? 36))%nat.

Definition plain_identifier (name : string) : bool :=
  match String.list_ascii_of_string name with
  | [] => false
  | l => forallb identifier_char l
  end.

(** The column names of the catalog lines that carry a given table name,
    whatever their schema. *)
Definition catalog_columns (srv : MariaDB) (table_name : string) : list string :=
  map COLUMN_NAME (filter (fun e => TABLE_NAME e = table_name) (COLUMNS srv)).

(** A state reached from [s] by reading the clock some more times. *)
Definition later (s s' : State) : Prop :=
  self_connection s' = self_connection s /\
  self_client s' = self_client s /\
  mariadb_server s' = mariadb_server s /\
  mongo_server s' = mongo_server s /\
  utc_clock s' = utc_clock s /\
  stdout s' = stdout s /\
  (clock_reads s <= clock_reads s')%nat.

(** [v'] is what the conversion makes of [v] at some moment of the run that
    started in [s]. *)
Definition normalized_in (s : State) (v v' : Value) : Prop :=
  exists s1 s2, later s s1 /\ normalize v s1 = (Ok v', s2).

(** What a well-described row becomes. *)
Definition document_of (s0 : State) (col_names : list string) (row : Row)
    (doc : Document) : Prop :=
  length doc = length row /\
  doc.*1 = col_names /\
  Forall2 (normalized_in s0) row doc.*2 /\
  forall i v, row !! i = Some v ->
    exists name v', col_names !! i = Some name /\ doc !! i = Some (name, v') /\
                    normalized_in s0 v v'.

(** The state once [connect] and [open_client] have both gone through. *)
Definition ready (ARGS : Args) (src : MariaDB) (tgt : MongoDB)
    (clock : nat -> DateTime) : State :=
  mkState (Some (mkConnection (arg_sourcedb ARGS)))
    (Some (mkMongoClient (arg_mongodb ARGS))) src tgt clock O [].

(** ** Sample worlds *)

Module Sample.

Definition clock (n : nat) : DateTime :=
  mkDateTime 2022 1 1 0 0 (Z.of_nat n) 0.

(** A server with two databases that both have a table [t], a table [e]
    without rows and a table [big] with a DECIMAL(40,2) column. *)
Definition one35 : Decimal := mkDecimal false (replicate 35 1%nat) (-2).

Definition server : MariaDB :=
  mkMariaDB (fun _ _ _ _ => None)
    [ mkColumn "other" "t" "a";
      mkColumn "shop" "t" "a"; mkColumn "shop" "t" "b";
      mkColumn "shop" "e" "id";
      mkColumn "shop" "big" "amount";
      mkColumn "shop" "orders" "id"; mkColumn "shop" "orders" "price";
      mkColumn "shop" "orders" "created" ]
    [ mkTable "other" "t" [[VInt 7]];
      mkTable "shop" "t" [[VInt 1; VInt 2]];
      mkTable "shop" "e" [];
      mkTable "shop" "big" [[VDecimal one35]];
      mkTable "shop" "orders"
        [[VInt 1; VDecimal (mkDecimal false [1; 9; 9; 9]%nat (-2));
          VDate (mkDate 2020 8 8)]] ].

(** The same server refusing every login. *)
Definition closed_server : MariaDB :=
  mkMariaDB (fun _ _ _ _ => Some "Access denied for user") (COLUMNS server)
    (tables server).

(** The ObjectId of the [n]-th document, as a sample: [oid] and [n] marks. *)
Fixpoint object_id (n : nat) : string :=
  match n with
  | O => "oid"
  | S m => object_id m +:+ "+"
  end.

Definition target : MongoDB :=
  mkMongoDB (fun _ => None) (fun _ _ _ => None) [] object_id.

Definition args (table : string) : Args :=
  mkArgs "localhost" "mongodb://localhost" "shop" "copy" table "c" "u" "p".

Definition connected : State :=
  mkState (Some (mkConnection "shop")) (Some (mkMongoClient "mongodb://localhost"))
    server target clock O [].

Definition evening : DateTime := mkDateTime 2020 8 8 21 0 44 0.

End Sample.

(** ** Further notions *)

(** [for k, v in items: d[k] = v] *)
Definition dict_set_all (d : Document) (items : list (string * Value)) : Document :=
  fold_left (fun d p => dict_set d p.1 p.2) items d.

(** A value of one of the three classes the conversion is there to remove:
    exactly [decimal.Decimal], exactly [datetime.date], or
    [datetime.timedelta]. *)
Definition relational_only (v : Value) : bool :=
  bool_decide (type_of v = cls_Decimal)
  || bool_decide (type_of v = cls_date)
  || bool_decide (type_of v = cls_timedelta).

(** What the conversion makes of a value in a run whose clock is [clock]: a
    [Decimal128] with the decimal's digits (or those of the same number
    rounded without loss), midnight of the day for a date, with or without
    a time of day, a reading of the clock for an interval, and the value
    itself in every other case. *)
Definition converted (clock : nat -> DateTime) (v v' : Value) : Prop :=
  match v with
  | VDecimal d => exists x, Decimal128 d = Ok x /\ v' = VDecimal128 x
  | VDate d => v' = VDatetime (midnight d)
  | VDatetime dt => v' = VDatetime (mkDateTime (year dt) (month dt) (day dt) 0 0 0 0)
  | VTimedelta _ => exists n, v' = VDatetime (clock n)
  | _ => v' = v
  end.

(** How many values of a row are intervals. *)
Definition count_intervals (row : Row) : nat :=
  length (filter (fun v => isinstance v cls_timedelta = true) row).

(** An exception other than [SystemExit]. *)
Definition is_error (e : Exn) : Prop :=
  match e with
  | SystemExit _ => False
  | _ => True
  end.

(** A computation that touches nothing but the clock's count of readings
    and raises no [SystemExit]. *)
Definition quiet {A} (m : Py A) : Prop :=
  forall s r s', m s = (r, s') -> later s s' /\ forall e, r = Raise e -> is_error e.

(** ** More sample worlds *)

Module Fixture.

Definition short : Timedelta := mkTimedelta 0 90 0.

Definition long : Timedelta := mkTimedelta 2 0 0.

(** [jobs] exists in two schemas, so its name list is [id; id; took; wait]
    while its rows have three values; [wide] is listed with one column but
    its rows have two values. *)
Definition server : MariaDB :=
  mkMariaDB (fun _ _ _ _ => None)
    [ mkColumn "other" "jobs" "id";
      mkColumn "shop" "jobs" "id"; mkColumn "shop" "jobs" "took";
      mkColumn "shop" "jobs" "wait";
      mkColumn "shop" "wide" "a";
      mkColumn "shop" "runs" "id"; mkColumn "shop" "runs" "took";
      mkColumn "shop" "runs" "wait" ]
    [ mkTable "shop" "jobs" [[VInt 1; VTimedelta short; VTimedelta long]];
      mkTable "shop" "wide" [[VInt 1; VInt 2]];
      mkTable "shop" "runs"
        [[VInt 1; VTimedelta short; VTimedelta long];
         [VInt 2; VNone; VTimedelta short]] ].

(** A target that takes one document of a batch and rejects the next. *)
Definition strict_target : MongoDB :=
  mkMongoDB (fun _ => None) (fun _ _ _ => Some (1%nat, "E11000 duplicate key error"))
    [] Sample.object_id.

Definition connected : State :=
  mkState (Some (mkConnection "shop")) (Some (mkMongoClient "mongodb://localhost"))
    server Sample.target Sample.clock O [].

End Fixture.

(** * Properties *)

(** ** Digit strings *)

Lemma fold_digits_shift (l : list nat) (a : Z) :
  fold_left (fun a d => 10 * a + Z.of_nat d) l a
  = a * 10 ^ Z.of_nat (length l) + digits_value l.
Proof.
  unfold digits_value. revert a.
  induction l as [|d l IH]; intros a.
  - simpl. lia.
  - cbn [fold_left length]. rewrite IH, (IH (10 * 0 + Z.of_nat d)).
    rewrite Nat2Z.inj_succ, Z.pow_succ_r by lia. lia.
Qed.

Lemma digits_value_app (l1 l2 : list nat) :
  digits_value (l1 ++ l2)%list
  = digits_value l1 * 10 ^ Z.of_nat (length l2) + digits_value l2.
Proof.
  unfold digits_value at 1. rewrite fold_left_app.
  fold (digits_value l1). apply fold_digits_shift.
Qed.

Lemma digits_value_zeros (l : list nat) :
  all_zeros l = true -> digits_value l = 0.
Proof.
  induction l as [|d l IH]; [reflexivity|].
  cbn [all_zeros forallb]. intros [Hd Hl]%andb_prop.
  apply Nat.eqb_eq in Hd. subst d.
  change (0%nat :: l) with ([0%nat] ++ l)%list. rewrite digits_value_app.
  fold (all_zeros l) in Hl. rewrite (IH Hl). reflexivity.
Qed.

Lemma all_zeros_replicate (n : nat) : all_zeros (replicate n 0%nat) = true.
Proof. induction n; [reflexivity | assumption]. Qed.

Lemma digits_value_kept (kept : list nat) :
  digits_value (or_zero kept) = digits_value kept.
Proof. destruct kept; reflexivity. Qed.

(** ** bson's Decimal128 *)

(** A decimal that fits is stored digit for digit. *)
Lemma Decimal128_fits (d : Decimal) :
  fits_decimal128 d ->
  Decimal128 d = Ok (mkDec128 (dec_sign d) (dec_digits d) (dec_exp d)).
Proof.
  intros [Hlen [Hlo Hhi]]. unfold Decimal128.
  destruct (is_zero d) eqn:Hz.
  - unfold is_zero in Hz.
    destruct (dec_digits d) as [|[|?] [|? ?]]; try discriminate.
    f_equal. f_equal. lia.
  - unfold Dec128Ctx.prec, Dec128Ctx.Etop, Dec128Ctx.Etiny, Dec128Ctx.Emin,
      Dec128Ctx.Emax, Dec128Ctx.prec in *.
    repeat match goal with
           | |- context [?a <? ?b] => destruct (Z.ltb_spec a b); try lia
           end.
    reflexivity.
Qed.

Ltac dec_simpl :=
  unfold to_decimal;
  cbn [dec_sign dec_digits dec_exp d128_sign d128_digits d128_exp].

(** Whatever [Decimal128] accepts denotes the number it was given: the
    conversion never approximates. *)
Lemma Decimal128_same_number (d : Decimal) (x : Dec128) :
  Decimal128 d = Ok x -> same_number (to_decimal x) d.
Proof.
  unfold Decimal128, same_number.
  destruct (is_zero d) eqn:Hz.
  - intros [= <-]. dec_simpl. split; [reflexivity|].
    unfold is_zero in Hz.
    destruct (dec_digits d) as [|[|?] [|? ?]]; try discriminate.
    reflexivity.
  - set (len := Z.of_nat (length (dec_digits d))).
    destruct (Dec128Ctx.Etop <? len + dec_exp d - Dec128Ctx.prec); [discriminate|].
    set (exp_min := Z.max (len + dec_exp d - Dec128Ctx.prec) Dec128Ctx.Etiny).
    destruct (Z.ltb_spec (dec_exp d) exp_min) as [Hround|Hnoround].
    + set (kept := Z.to_nat (len + dec_exp d - exp_min)).
      destruct (all_zeros (drop kept (dec_digits d))) eqn:Hzeros; [|discriminate].
      intros [= <-]. dec_simpl. split; [reflexivity|].
      rewrite digits_value_kept.
      rewrite Z.min_r by lia. rewrite Z.sub_diag, Z.mul_1_r.
      rewrite <- (take_drop kept (dec_digits d)) at 2.
      rewrite digits_value_app, (digits_value_zeros _ Hzeros), Z.add_0_r.
      destruct (Z.le_gt_cases 0 (len + dec_exp d - exp_min)) as [Hk|Hk].
      * rewrite length_drop. f_equal. f_equal. subst kept len. lia.
      * assert (kept = 0%nat) as -> by (subst kept; lia).
        rewrite take_0. reflexivity.
    + destruct (Z.ltb_spec Dec128Ctx.Etop (dec_exp d)) as [Hclamp|Hplain].
      * intros [= <-]. dec_simpl. split; [reflexivity|].
        rewrite Z.min_l by lia. rewrite Z.sub_diag, Z.mul_1_r.
        rewrite digits_value_app, (digits_value_zeros _ (all_zeros_replicate _)).
        rewrite length_replicate, Z.add_0_r. f_equal. f_equal. lia.
      * intros [= <-]. dec_simpl. split; reflexivity.
Qed.

(** ** The conversion of one value *)

Lemma normalize_decimal (d : Decimal) (s : State) :
  normalize (VDecimal d) s
  = (match Decimal128 d with
     | Ok x => Ok (VDecimal128 x)
     | Raise e => Raise e
     end, s).
Proof.
  unfold normalize, new_Decimal128, bind, lift, ret. cbn.
  destruct (Decimal128 d); reflexivity.
Qed.

Lemma normalize_date (d : Date) (s : State) :
  normalize (VDate d) s = (Ok (VDatetime (midnight d)), s).
Proof. reflexivity. Qed.

Lemma normalize_datetime (dt : DateTime) (s : State) :
  normalize (VDatetime dt) s
  = (Ok (VDatetime (mkDateTime (year dt) (month dt) (day dt) 0 0 0 0)), s).
Proof. reflexivity. Qed.

Lemma normalize_timedelta (td : Timedelta) (s : State) :
  normalize (VTimedelta td) s
  = (Ok (VDatetime (utc_clock s (clock_reads s))), (utcnow s).2).
Proof. reflexivity. Qed.

Lemma normalize_passes (v : Value) (s : State) :
  isinstance v cls_Decimal = false ->
  isinstance v cls_date = false ->
  isinstance v cls_timedelta = false ->
  normalize v s = (Ok v, s).
Proof.
  intros H1 H2 H3. unfold normalize. rewrite H1, H2, H3. reflexivity.
Qed.

Lemma Decimal128_raises (d : Decimal) (e : Exn) :
  Decimal128 d = Raise e ->
  (e = DecimalInexact \/ e = DecimalOverflow) /\ ~ fits_decimal128 d.
Proof.
  intros H. split.
  - unfold Decimal128 in H.
    repeat match type of H with
           | (if ?c then _ else _) = _ => destruct c
           | (let _ := _ in _) = _ => cbv zeta in H
           end; inversion H; auto.
  - intros Hfits. rewrite (Decimal128_fits d Hfits) in H. discriminate.
Qed.

(** C2, at a DATETIME value: [datetime.datetime] derives from
    [datetime.date], so the date branch also takes a value that carries a
    time of day and resets it to midnight; 2020-08-08 21:00:44 comes out as
    2020-08-08 00:00:00. *)
Theorem normalize_datetime_loses_time_of_day :
  forall s : State,
    isinstance (VDatetime Sample.evening) cls_date = true /\
    normalize (VDatetime Sample.evening) s
    = (Ok (VDatetime (mkDateTime 2020 8 8 0 0 0 0)), s) /\
    VDatetime (mkDateTime 2020 8 8 0 0 0 0) <> VDatetime Sample.evening.
Proof.
  intros s. split; [reflexivity|]. split; [reflexivity|]. discriminate.
Qed.

(** What the date branch does keep: a pure date becomes midnight of the
    same day. *)
Lemma normalize_date_is_midnight (d : Date) (s : State) :
  exists dt,
    normalize (VDate d) s = (Ok (VDatetime dt), s) /\
    year dt = d_year d /\ month dt = d_month d /\ day dt = d_day d /\
    hour dt = 0 /\ minute dt = 0 /\ second dt = 0 /\ microsecond dt = 0.
Proof. exists (midnight d). repeat split. Qed.

(** C5 as written fails: a DECIMAL value of 35 significant digits is not
    converted at all, [Decimal128] raises [decimal.Inexact]. *)
Lemma decimal_of_35_digits_is_refused :
  normalize (VDecimal Sample.one35) Sample.connected
  = (Raise DecimalInexact, Sample.connected).
Proof. reflexivity. Qed.

(** C5, amended: a decimal that decimal128 can hold (at most 34 digits,
    exponent within the format's range) is converted to a [Decimal128] with
    the same sign, digits and exponent, and reading that back gives the
    original decimal; and whenever the conversion of any decimal succeeds,
    the result denotes exactly the same number (no approximation). *)
Theorem normalize_decimal_exact (d : Decimal) (s : State) :
  (fits_decimal128 d ->
   exists x, normalize (VDecimal d) s = (Ok (VDecimal128 x), s) /\
             d128_sign x = dec_sign d /\ d128_digits x = dec_digits d /\
             d128_exp x = dec_exp d /\ to_decimal x = d) /\
  (forall v s', normalize (VDecimal d) s = (Ok v, s') ->
     exists x, v = VDecimal128 x /\ same_number (to_decimal x) d).
Proof.
  split.
  - intros Hfits.
    exists (mkDec128 (dec_sign d) (dec_digits d) (dec_exp d)).
    rewrite normalize_decimal, (Decimal128_fits d Hfits).
    destruct d; repeat split.
  - intros v s'. rewrite normalize_decimal.
    destruct (Decimal128 d) as [x|e] eqn:Hx; [|discriminate].
    intros [= <- _]. exists x. split; [reflexivity|].
    now apply Decimal128_same_number.
Qed.

Lemma normalize_decimal_exact_witness :
  fits_decimal128 (mkDecimal false [1; 9; 9; 9]%nat (-2)) /\
  exists x,
    normalize (VDecimal (mkDecimal false [1; 9; 9; 9]%nat (-2))) Sample.connected
    = (Ok (VDecimal128 x), Sample.connected) /\
    d128_sign x = false /\ d128_digits x = [1; 9; 9; 9]%nat /\
    d128_exp x = -2 /\ to_decimal x = mkDecimal false [1; 9; 9; 9]%nat (-2).
Proof.
  assert (fits_decimal128 (mkDecimal false [1; 9; 9; 9]%nat (-2))) as Hfits.
  { unfold fits_decimal128. cbn. unfold Dec128Ctx.Etiny, Dec128Ctx.Etop,
      Dec128Ctx.Emin, Dec128Ctx.Emax, Dec128Ctx.prec. lia. }
  split; [exact Hfits|].
  exact (proj1 (normalize_decimal_exact _ Sample.connected) Hfits).
Defined.

(** C6: an interval is replaced by the reading of the clock taken at that
    moment, whatever the interval is; the interval itself leaves no trace in
    the result. *)
Theorem normalize_interval_is_clock_reading (td : Timedelta) (s : State) :
  normalize (VTimedelta td) s
  = (Ok (VDatetime (utc_clock s (clock_reads s))), (utcnow s).2) /\
  clock_reads (utcnow s).2 = S (clock_reads s) /\
  forall td', normalize (VTimedelta td') s = normalize (VTimedelta td) s.
Proof. repeat split. Qed.

(** C7 as written fails: the conversion of a decimal that does not fit
    raises, and a value with a time of day does not pass through
    unchanged. *)
Lemma normalize_fails_or_alters :
  (normalize (VDecimal Sample.one35) Sample.connected).1 = Raise DecimalInexact /\
  (normalize (VDatetime Sample.evening) Sample.connected).1
  = Ok (VDatetime (mkDateTime 2020 8 8 0 0 0 0)) /\
  VDatetime (mkDateTime 2020 8 8 0 0 0 0) <> VDatetime Sample.evening.
Proof. split; [reflexivity|]. split; [reflexivity|discriminate]. Qed.

(** C7, amended: the conversion fails on no value but a decimal, and on a
    decimal only with [decimal.Inexact] or [decimal.Overflow] when decimal128
    cannot hold it; every value that is an instance of neither [Decimal],
    [date] nor [timedelta] passes through unchanged and leaves the state
    alone. *)
Theorem normalize_total_except_decimal (v : Value) (s : State) :
  (isinstance v cls_Decimal = false ->
   exists v' s', normalize v s = (Ok v', s')) /\
  (isinstance v cls_Decimal = false ->
   isinstance v cls_date = false ->
   isinstance v cls_timedelta = false ->
   normalize v s = (Ok v, s)) /\
  (forall e s', normalize v s = (Raise e, s') ->
     exists d, v = VDecimal d /\ ~ fits_decimal128 d /\
               (e = DecimalInexact \/ e = DecimalOverflow)).
Proof.
  split; [|split].
  - intros Hdec. destruct v; try discriminate Hdec; eexists; eexists; reflexivity.
  - apply normalize_passes.
  - intros e s' H. destruct v; try discriminate H.
    rewrite normalize_decimal in H.
    destruct (Decimal128 d) as [x|e'] eqn:Hx; [discriminate|].
    injection H as -> _. exists d. split; [reflexivity|].
    destruct (Decimal128_raises d e Hx). tauto.
Qed.

Lemma normalize_total_except_decimal_witness :
  isinstance (VStr "abc") cls_Decimal = false /\
  isinstance (VStr "abc") cls_date = false /\
  isinstance (VStr "abc") cls_timedelta = false /\
  normalize (VStr "abc") Sample.connected = (Ok (VStr "abc"), Sample.connected).
Proof.
  split; [reflexivity|]. split; [reflexivity|]. split; [reflexivity|].
  exact (proj1 (proj2 (normalize_total_except_decimal (VStr "abc") Sample.connected))
           eq_refl eq_refl eq_refl).
Defined.

(** C8: on every value that is not an interval the conversion gives the same
    result in any two states (any two runs, clocks and servers) and does not
    touch the state; on an interval the result is the clock reading, so it
    differs as soon as the two readings differ. *)
Theorem normalize_deterministic (v : Value) (s1 s2 : State) :
  (isinstance v cls_timedelta = false ->
   (normalize v s1).1 = (normalize v s2).1 /\ (normalize v s1).2 = s1) /\
  (isinstance v cls_timedelta = true ->
   utc_clock s1 (clock_reads s1) <> utc_clock s2 (clock_reads s2) ->
   (normalize v s1).1 <> (normalize v s2).1).
Proof.
  split.
  - intros Htd. destruct v; try discriminate Htd; try (split; reflexivity).
    rewrite !normalize_decimal. split; reflexivity.
  - intros Htd Hclock. destruct v; try discriminate Htd.
    rewrite !normalize_timedelta. cbn. congruence.
Qed.

Lemma normalize_deterministic_witness :
  isinstance (VInt 42) cls_timedelta = false /\
  (normalize (VInt 42) Sample.connected).1
  = (normalize (VInt 42) (init Sample.closed_server Sample.target (fun _ => Sample.evening))).1.
Proof.
  split; [reflexivity|].
  exact (proj1 (proj1 (normalize_deterministic (VInt 42) Sample.connected
                         (init Sample.closed_server Sample.target
                            (fun _ => Sample.evening))) eq_refl)).
Defined.

(** ** Schema introspection *)

Lemma collect_names (l : list ColumnEntry) (acc : list string) (s : State) :
  for_in (map (fun e => [COLUMN_NAME e]) l)
    (fun row _col_list => name <- getitem row 0 ;; ret (_col_list ++ [name])%list)
    acc s
  = (Ok (acc ++ map COLUMN_NAME l)%list, s).
Proof.
  revert acc. induction l as [|e l IH]; intros acc.
  - cbn. now rewrite app_nil_r.
  - cbn [map for_in]. unfold bind at 1. cbn.
    rewrite IH, <- app_assoc. reflexivity.
Qed.

Lemma get_column_names_connected (table_name : string) (s : State) (c : Connection) :
  self_connection s = Some c ->
  get_column_names table_name s
  = (Ok (catalog_columns (mariadb_server s) table_name), s).
Proof.
  intros Hc. unfold get_column_names, bind, connection_cursor.
  rewrite Hc. unfold execute_select_column_names.
  rewrite collect_names. reflexivity.
Qed.

Lemma get_column_names_unconnected (table_name : string) (s : State) :
  self_connection s = None ->
  get_column_names table_name s
  = (Raise (AttributeError "'NoneType' object has no attribute 'cursor'"), s).
Proof.
  intros Hc. unfold get_column_names, bind, connection_cursor. now rewrite Hc.
Qed.

(** C10: the catalog query selects by table name alone.  On an open
    connection, whatever its database, [get_column_names] returns the
    COLUMN_NAME of every catalog line with that TABLE_NAME, in catalog order;
    so a column of a same-named table of any other schema is in the list,
    and the list of a catalog made of two parts is the two lists in a row. *)
Theorem get_column_names_ignores_schema
    (table_name : string) (s : State) (c : Connection) :
  self_connection s = Some c ->
  get_column_names table_name s
  = (Ok (map COLUMN_NAME
           (filter (fun e => TABLE_NAME e = table_name) (COLUMNS (mariadb_server s)))),
     s) /\
  (forall e, e ∈ COLUMNS (mariadb_server s) ->
             TABLE_NAME e = table_name ->
             TABLE_SCHEMA e <> conn_database c ->
             COLUMN_NAME e ∈ catalog_columns (mariadb_server s) table_name) /\
  (forall login l1 l2 tbls,
     mariadb_server s = mkMariaDB login (l1 ++ l2) tbls ->
     catalog_columns (mariadb_server s) table_name
     = (catalog_columns (mkMariaDB login l1 tbls) table_name
        ++ catalog_columns (mkMariaDB login l2 tbls) table_name)%list).
Proof.
  intros Hc. split; [|split].
  - now apply get_column_names_connected with c.
  - intros e He Hname _. unfold catalog_columns.
    apply list_elem_of_fmap. exists e. split; [reflexivity|].
    apply list_elem_of_filter. now split.
  - intros login l1 l2 tbls ->. unfold catalog_columns. cbn [COLUMNS].
    now rewrite filter_app, map_app.
Qed.

Lemma get_column_names_ignores_schema_witness :
  self_connection Sample.connected = Some (mkConnection "shop") /\
  get_column_names "t" Sample.connected = (Ok ["a"; "a"; "b"], Sample.connected).
Proof.
  split; [reflexivity|].
  exact (proj1 (get_column_names_ignores_schema "t" Sample.connected
                  (mkConnection "shop") eq_refl)).
Defined.

(** ** Row extraction *)

Lemma later_refl (s : State) : later s s.
Proof. unfold later. repeat split; lia. Qed.

Lemma later_trans (s1 s2 s3 : State) : later s1 s2 -> later s2 s3 -> later s1 s3.
Proof. unfold later. intuition (try congruence; lia). Qed.

Lemma normalize_later (v : Value) (s s' : State) (r : Result Value) :
  normalize v s = (r, s') -> later s s'.
Proof.
  destruct v; try (intros [= _ <-]; apply later_refl).
  - rewrite normalize_decimal. intros [= _ <-]. apply later_refl.
  - rewrite normalize_timedelta. intros [= _ <-].
    unfold later. cbn. repeat split; lia.
Qed.

Lemma dict_set_fresh (d : Document) (k : string) (v : Value) :
  k ∉ d.*1 -> dict_set d k v = (d ++ [(k, v)])%list.
Proof.
  induction d as [|[k' v'] d IH]; intros Hk; [reflexivity|].
  cbn [dict_set]. rewrite fmap_cons in Hk. cbn in Hk.
  apply not_elem_of_cons in Hk as [Hne Hk].
  destruct (decide (k' = k)) as [->|_]; [contradiction|].
  cbn. now rewrite IH.
Qed.

Lemma row_body_step (col_names : list string) (row : Row) (k : nat)
    (ck : string) (v : Value) (acc : Document) (s : State) :
  col_names !! k = Some ck ->
  row !! k = Some v ->
  (col_name <- getitem col_names k ;;
   value <- getitem row k ;;
   value <- normalize value ;;
   ret (dict_set acc col_name value)) s
  = (v' <- normalize v ;; ret (dict_set acc ck v')) s.
Proof.
  intros H1 H2. unfold bind at 1. unfold getitem at 1. rewrite H1.
  unfold ret at 1. cbv beta iota. unfold bind at 1. unfold getitem at 1.
  rewrite H2. reflexivity.
Qed.

(** The loop over [range(len(row))], from index [k] on: as long as the
    names are enough and distinct, it appends the remaining names paired
    with the converted remaining values. *)
Lemma row_loop_zip (col_names : list string) (row : Row) :
  forall (rest : Row) (k : nat) (acc : Document) (s : State),
    drop k row = rest ->
    (k + length rest <= length col_names)%nat ->
    NoDup (take (k + length rest) col_names) ->
    acc.*1 = take k col_names ->
    for_in (seq k (length rest))
      (fun i row_dict =>
         col_name <- getitem col_names i ;;
         value <- getitem row i ;;
         value <- normalize value ;;
         ret (dict_set row_dict col_name value))
      acc s
    = (vs <- normalize_all rest ;;
       ret (acc ++ zip (take (length rest) (drop k col_names)) vs)%list) s.
Proof.
  induction rest as [|v rest IH]; intros k acc s Hdrop Hlen Hnodup Hacc.
  - cbn. now rewrite app_nil_r.
  - cbn [length] in *. cbn [seq for_in normalize_all].
    assert (row !! k = Some v) as Hv.
    { assert (drop k row !! 0%nat = Some v) as H0 by now rewrite Hdrop.
      rewrite lookup_drop, Nat.add_0_r in H0. exact H0. }
    destruct (lookup_lt_is_Some_2 col_names k) as [ck Hck]; [lia|].
    assert (drop k col_names = ck :: drop (S k) col_names) as Hcols.
    { now apply drop_S. }
    assert (ck ∉ acc.*1) as Hfresh.
    { rewrite Hacc. intros Hin.
      apply list_elem_of_lookup in Hin as [j Hj].
      pose proof (lookup_lt_Some _ _ _ Hj) as Hjlt.
      rewrite length_take in Hjlt.
      rewrite lookup_take_lt in Hj by lia.
      assert (j = k); [|lia].
      apply (NoDup_lookup _ j k ck Hnodup).
      - rewrite lookup_take_lt by lia. exact Hj.
      - rewrite lookup_take_lt by lia. exact Hck. }
    unfold bind at 1. rewrite (row_body_step _ _ _ _ _ _ _ Hck Hv).
    unfold bind in *.
    destruct (normalize v s) as [[v'|e] s1]; cbn [ret]; [|reflexivity].
    rewrite (dict_set_fresh _ _ _ Hfresh).
    rewrite (IH (S k) (acc ++ [(ck, v')])%list s1).
    + destruct (normalize_all rest s1) as [[vs|e] s2]; [|reflexivity].
      unfold ret. rewrite Hcols. cbn [take zip zip_with].
      rewrite <- app_assoc. reflexivity.
    + rewrite (drop_S _ _ _ Hv) in Hdrop. now injection Hdrop.
    + lia.
    + replace (S k + length rest)%nat with (k + S (length rest))%nat by lia.
      exact Hnodup.
    + rewrite fmap_app, Hacc. cbn.
      now rewrite (take_S_r _ _ _ Hck).
Qed.

(** One row, when there are exactly as many names as values and the names
    are distinct: the names zipped with the converted values. *)
Lemma row_to_dict_zip (col_names : list string) (row : Row) (s : State) :
  length row = length col_names ->
  NoDup col_names ->
  row_to_dict col_names row s
  = (vs <- normalize_all row ;; ret (zip col_names vs)) s.
Proof.
  intros Hlen Hnodup. unfold row_to_dict.
  rewrite (row_loop_zip col_names row row 0 [] s).
  - cbn [drop app]. rewrite Hlen, firstn_all. reflexivity.
  - reflexivity.
  - lia.
  - cbn. rewrite Hlen, firstn_all. exact Hnodup.
  - reflexivity.
Qed.

Lemma normalize_fits (v : Value) (s : State) :
  value_fits v -> exists v' s', normalize v s = (Ok v', s').
Proof.
  intros Hfits. destruct v; try (eexists; eexists; reflexivity).
  cbn in Hfits. rewrite normalize_decimal, (Decimal128_fits d Hfits).
  eexists; eexists; reflexivity.
Qed.

Lemma normalize_all_fits (row : Row) :
  forall s s0 : State,
    later s0 s ->
    Forall value_fits row ->
    exists vs s',
      normalize_all row s = (Ok vs, s') /\ later s0 s' /\
      Forall2 (normalized_in s0) row vs.
Proof.
  induction row as [|v row IH]; intros s s0 Hs Hfits.
  - exists [], s. split; [reflexivity|]. split; [assumption | constructor].
  - apply Forall_cons in Hfits as [Hv Hrow].
    destruct (normalize_fits v s Hv) as (v' & s1 & Hn).
    assert (later s0 s1) as Hs1.
    { eapply later_trans; [exact Hs|]. eapply normalize_later; exact Hn. }
    destruct (IH s1 s0 Hs1 Hrow) as (vs & s2 & Hall & Hs2 & Hrel).
    exists (v' :: vs), s2. cbn [normalize_all]. unfold bind.
    rewrite Hn, Hall. split; [reflexivity|]. split; [assumption|].
    constructor; [|assumption]. exists s, s1. now split.
Qed.

Lemma row_to_dict_document (col_names : list string) (row : Row) (s s0 : State) :
  later s0 s ->
  length row = length col_names ->
  NoDup col_names ->
  Forall value_fits row ->
  exists doc s',
    row_to_dict col_names row s = (Ok doc, s') /\ later s0 s' /\
    document_of s0 col_names row doc.
Proof.
  intros Hs Hlen Hnodup Hfits.
  destruct (normalize_all_fits row s s0 Hs Hfits) as (vs & s' & Hall & Hs' & Hrel).
  exists (zip col_names vs), s'.
  rewrite (row_to_dict_zip _ _ _ Hlen Hnodup). unfold bind. rewrite Hall.
  split; [reflexivity|]. split; [assumption|].
  pose proof (Forall2_length _ _ _ Hrel) as Hvs.
  assert ((zip col_names vs).*1 = col_names) as Hfst
    by (apply fst_zip; lia).
  assert ((zip col_names vs).*2 = vs) as Hsnd
    by (apply snd_zip; lia).
  unfold document_of. rewrite Hfst, Hsnd.
  split; [rewrite length_zip; lia|]. split; [reflexivity|].
  split; [assumption|].
  intros i v Hi.
  destruct (Forall2_lookup_l _ _ _ _ _ Hrel Hi) as (v' & Hv' & Hnorm).
  destruct (lookup_lt_is_Some_2 col_names i) as [name Hname].
  { rewrite <- Hlen. eapply lookup_lt_Some; exact Hi. }
  exists name, v'. split; [assumption|]. split; [|assumption].
  rewrite lookup_zip_with, Hname, Hv'. reflexivity.
Qed.

Lemma rows_loop_documents (col_names : list string) (rows : list Row) :
  forall (acc : list Document) (s s0 : State),
    later s0 s ->
    NoDup col_names ->
    Forall (fun row => length row = length col_names /\ Forall value_fits row) rows ->
    exists docs s',
      for_in rows
        (fun row rows_dict_list =>
           row_dict <- row_to_dict col_names row ;;
           ret (rows_dict_list ++ [row_dict])%list)
        acc s
      = (Ok (acc ++ docs)%list, s') /\
      later s0 s' /\
      Forall2 (document_of s0 col_names) rows docs.
Proof.
  induction rows as [|row rows IH]; intros acc s s0 Hs Hnodup Hrows.
  - exists [], s. cbn. rewrite app_nil_r.
    split; [reflexivity|]. split; [assumption|constructor].
  - apply Forall_cons in Hrows as [[Hlen Hfits] Hrows].
    destruct (row_to_dict_document col_names row s s0 Hs Hlen Hnodup Hfits)
      as (doc & s1 & Hdoc & Hs1 & Hspec).
    destruct (IH (acc ++ [doc])%list s1 s0 Hs1 Hnodup Hrows)
      as (docs & s2 & Hloop & Hs2 & Hdocs).
    exists (doc :: docs), s2. cbn [for_in]. unfold bind at 1 2.
    rewrite Hdoc. cbn [ret]. rewrite Hloop, <- app_assoc.
    split; [reflexivity|]. split; [assumption|]. now constructor.
Qed.

(** C1 as written fails twice over.  With a table [t] in two schemas the
    introspection returns [a; a; b], and the row (1, 2) of [shop.t] becomes
    a document with the single field [a]; and a row holding a decimal of 35
    digits produces no document, the extraction raises. *)
Lemma extraction_drops_a_field_or_raises :
  (get_column_names "t" Sample.connected).1 = Ok ["a"; "a"; "b"] /\
  (execute_select_all (mkConnection "shop") "t" Sample.connected).1
  = Ok [[VInt 1; VInt 2]] /\
  (get_rows_dict_list "t" Sample.connected).1 = Ok [[("a", VInt 2)]] /\
  (get_rows_dict_list "big" Sample.connected).1 = Raise DecimalInexact.
Proof. repeat split. Qed.

(** C1, amended: when the introspection returns distinct names, as many as
    each row of the scanned table has values, and every decimal of the table
    fits decimal128, the extraction returns one document per row, in scan
    order; the document of a row has as many fields as the row has values,
    its field names are the introspected names in their order, and its value
    at position [i] is the conversion of the row's value at position [i]. *)
Theorem extraction_one_document_per_row
    (table_name : string) (s : State) (c : Connection) (tbl : Table) :
  self_connection s = Some c ->
  find_table (mariadb_server s) (conn_database c) table_name = Some tbl ->
  NoDup (catalog_columns (mariadb_server s) table_name) ->
  Forall (fun row =>
            length row = length (catalog_columns (mariadb_server s) table_name) /\
            Forall value_fits row) (tbl_rows tbl) ->
  exists docs s',
    get_column_names table_name s
    = (Ok (catalog_columns (mariadb_server s) table_name), s) /\
    get_rows_dict_list table_name s = (Ok docs, s') /\
    length docs = length (tbl_rows tbl) /\
    Forall2 (document_of s (catalog_columns (mariadb_server s) table_name))
      (tbl_rows tbl) docs.
Proof.
  intros Hc Hfind Hnodup Hrows.
  pose proof (get_column_names_connected table_name s c Hc) as Hcols.
  destruct (rows_loop_documents _ (tbl_rows tbl) [] s s (later_refl s) Hnodup Hrows)
    as (docs & s' & Hloop & _ & Hdocs).
  exists docs, s'. split; [assumption|]. split.
  - unfold get_rows_dict_list. unfold bind at 1. rewrite Hcols.
    unfold bind at 1. unfold connection_cursor. rewrite Hc.
    unfold bind at 1. unfold execute_select_all. rewrite Hfind.
    exact Hloop.
  - split; [|assumption]. symmetry. eapply Forall2_length; eassumption.
Qed.

Lemma extraction_one_document_per_row_witness :
  exists docs s',
    get_column_names "orders" Sample.connected
    = (Ok ["id"; "price"; "created"], Sample.connected) /\
    get_rows_dict_list "orders" Sample.connected = (Ok docs, s') /\
    length docs = 1%nat /\
    Forall2 (document_of Sample.connected ["id"; "price"; "created"])
      [[VInt 1; VDecimal (mkDecimal false [1; 9; 9; 9]%nat (-2));
        VDate (mkDate 2020 8 8)]] docs.
Proof.
  refine (extraction_one_document_per_row "orders" Sample.connected
            (mkConnection "shop")
            (mkTable "shop" "orders"
               [[VInt 1; VDecimal (mkDecimal false [1; 9; 9; 9]%nat (-2));
                 VDate (mkDate 2020 8 8)]])
            eq_refl eq_refl _ _).
  - apply (bool_decide_unpack _). vm_compute. exact I.
  - cbn. repeat constructor; vm_compute; discriminate.
Defined.

(** ** The script *)

Lemma connect_ok (host database user password : string) (s : State) :
  login_error (mariadb_server s) host database user password = None ->
  connect host database user password s
  = (Ok tt, (set_connection (Some (mkConnection database)) s).2).
Proof.
  intros H. unfold connect, try_except_mariadb, bind, mariadb_connect.
  rewrite H. reflexivity.
Qed.

Lemma connect_refused (host database user password err : string) (s : State) :
  login_error (mariadb_server s) host database user password = Some err ->
  connect host database user password s = (Ok tt, (print err s).2).
Proof.
  intros H. unfold connect, try_except_mariadb, bind, mariadb_connect.
  rewrite H. reflexivity.
Qed.

Lemma open_client_ok (uri : string) (s : State) :
  uri_error (mongo_server s) uri = None ->
  open_client uri s = (Ok tt, (set_client (Some (mkMongoClient uri)) s).2).
Proof.
  intros H. unfold open_client, bind, new_MongoClient. rewrite H. reflexivity.
Qed.

Lemma main_ready (ARGS : Args) (src : MariaDB) (tgt : MongoDB)
    (clock : nat -> DateTime) :
  login_error src (arg_mariadb ARGS) (arg_sourcedb ARGS) (arg_user ARGS)
    (arg_password ARGS) = None ->
  uri_error tgt (arg_mongodb ARGS) = None ->
  main ARGS (init src tgt clock)
  = (_ <- get_put_rows (arg_table ARGS) (arg_targetdb ARGS) (arg_collection ARGS) ;;
     _ <- close ;;
     sys_exit 0) (ready ARGS src tgt clock).
Proof.
  intros Hlogin Huri. unfold main. cbv zeta.
  unfold bind at 1. rewrite connect_ok by exact Hlogin.
  unfold bind at 1. rewrite open_client_ok by exact Huri.
  reflexivity.
Qed.

Lemma get_rows_dict_list_missing (table_name : string) (s : State) (c : Connection) :
  self_connection s = Some c ->
  find_table (mariadb_server s) (conn_database c) table_name = None ->
  get_rows_dict_list table_name s
  = (Raise (MariaDBError
              ("Table '" +:+ conn_database c +:+ "." +:+ table_name +:+ "' doesn't exist")),
     s).
Proof.
  intros Hc Hfind. unfold get_rows_dict_list.
  unfold bind at 1. rewrite (get_column_names_connected _ _ _ Hc).
  unfold bind at 1. unfold connection_cursor. rewrite Hc.
  unfold bind at 1. unfold execute_select_all. rewrite Hfind. reflexivity.
Qed.

Lemma get_rows_dict_list_empty (table_name : string) (s : State) (c : Connection)
    (tbl : Table) :
  self_connection s = Some c ->
  find_table (mariadb_server s) (conn_database c) table_name = Some tbl ->
  tbl_rows tbl = [] ->
  get_rows_dict_list table_name s = (Ok [], s).
Proof.
  intros Hc Hfind Hrows. unfold get_rows_dict_list.
  unfold bind at 1. rewrite (get_column_names_connected _ _ _ Hc).
  unfold bind at 1. unfold connection_cursor. rewrite Hc.
  unfold bind at 1. unfold execute_select_all. rewrite Hfind, Hrows. reflexivity.
Qed.

(** C3 as written fails: for a table that is in no schema the
    introspection returns the empty list and raises nothing; the error comes
    from the scan, and the script ends in a traceback with status 1, not
    100. *)
Lemma missing_table_is_not_a_schema_error :
  get_column_names "nope" Sample.connected = (Ok [], Sample.connected) /\
  (run_script (Sample.args "nope") Sample.server Sample.target Sample.clock).1
  = Traceback (MariaDBError "Table 'shop.nope' doesn't exist") /\
  exit_status
    (run_script (Sample.args "nope") Sample.server Sample.target Sample.clock).1
  <> 100.
Proof. split; [reflexivity|]. split; [reflexivity|]. discriminate. Qed.

(** C3, amended: when the table name is a plain identifier and the source
    database has no table of that name,
    the introspection returns normally (the names the catalog has under that
    table name, none unless another schema has such a table); the scan
    raises the driver's error, which nothing catches, so the migration
    fails with it; [put_rows] is never reached and the target is left as it
    was. *)
Theorem missing_table_fails_at_the_scan
    (ARGS : Args) (src : MariaDB) (tgt : MongoDB) (clock : nat -> DateTime) :
  login_error src (arg_mariadb ARGS) (arg_sourcedb ARGS) (arg_user ARGS)
    (arg_password ARGS) = None ->
  uri_error tgt (arg_mongodb ARGS) = None ->
  plain_identifier (arg_table ARGS) = true ->
  find_table src (arg_sourcedb ARGS) (arg_table ARGS) = None ->
  get_column_names (arg_table ARGS) (ready ARGS src tgt clock)
  = (Ok (catalog_columns src (arg_table ARGS)), ready ARGS src tgt clock) /\
  (exists msg,
     get_rows_dict_list (arg_table ARGS) (ready ARGS src tgt clock)
     = (Raise (MariaDBError msg), ready ARGS src tgt clock) /\
     run_script ARGS src tgt clock
     = (Traceback (MariaDBError msg), ready ARGS src tgt clock)) /\
  mongo_server (run_script ARGS src tgt clock).2 = tgt.
Proof.
  intros Hlogin Huri _ Hfind.
  pose proof (get_rows_dict_list_missing (arg_table ARGS) (ready ARGS src tgt clock)
                (mkConnection (arg_sourcedb ARGS)) eq_refl Hfind) as Hscan.
  assert (run_script ARGS src tgt clock
          = (Traceback (MariaDBError
                          ("Table '" +:+ arg_sourcedb ARGS +:+ "." +:+ arg_table ARGS
                           +:+ "' doesn't exist")),
             ready ARGS src tgt clock)) as Hrun.
  { unfold run_script. rewrite (main_ready _ _ _ _ Hlogin Huri).
    unfold bind at 1. unfold get_put_rows. unfold bind at 1.
    rewrite Hscan. reflexivity. }
  split; [|split].
  - now apply get_column_names_connected with (mkConnection (arg_sourcedb ARGS)).
  - eexists. split; [exact Hscan | exact Hrun].
  - rewrite Hrun. reflexivity.
Qed.

Lemma missing_table_fails_at_the_scan_witness :
  plain_identifier "nope" = true /\
  find_table Sample.server "shop" "nope" = None /\
  get_column_names "nope" (ready (Sample.args "nope") Sample.server Sample.target Sample.clock)
  = (Ok [], ready (Sample.args "nope") Sample.server Sample.target Sample.clock) /\
  mongo_server
    (run_script (Sample.args "nope") Sample.server Sample.target Sample.clock).2
  = Sample.target.
Proof.
  split; [reflexivity|]. split; [reflexivity|].
  destruct (missing_table_fails_at_the_scan (Sample.args "nope") Sample.server
              Sample.target Sample.clock eq_refl eq_refl eq_refl eq_refl)
    as (H1 & _ & H3).
  split; [exact H1 | exact H3].
Defined.

(** C4, at an empty table: the extraction returns the empty list, pymongo's
    [insert_many] refuses an empty list with a TypeError before anything is
    sent, nothing catches it, and the script ends in a traceback with status
    1; there is no load result and the status is not 0. *)
Theorem empty_table_ends_in_type_error
    (ARGS : Args) (src : MariaDB) (tgt : MongoDB) (clock : nat -> DateTime)
    (tbl : Table) :
  login_error src (arg_mariadb ARGS) (arg_sourcedb ARGS) (arg_user ARGS)
    (arg_password ARGS) = None ->
  uri_error tgt (arg_mongodb ARGS) = None ->
  find_table src (arg_sourcedb ARGS) (arg_table ARGS) = Some tbl ->
  tbl_rows tbl = [] ->
  get_rows_dict_list (arg_table ARGS) (ready ARGS src tgt clock)
  = (Ok [], ready ARGS src tgt clock) /\
  get_put_rows (arg_table ARGS) (arg_targetdb ARGS) (arg_collection ARGS)
    (ready ARGS src tgt clock)
  = (Raise (TypeError "documents must be a non-empty list"),
     ready ARGS src tgt clock) /\
  run_script ARGS src tgt clock
  = (Traceback (TypeError "documents must be a non-empty list"),
     ready ARGS src tgt clock) /\
  exit_status (run_script ARGS src tgt clock).1 = 1.
Proof.
  intros Hlogin Huri Hfind Hrows.
  pose proof (get_rows_dict_list_empty (arg_table ARGS) (ready ARGS src tgt clock)
                (mkConnection (arg_sourcedb ARGS)) tbl eq_refl Hfind Hrows) as Hget.
  assert (get_put_rows (arg_table ARGS) (arg_targetdb ARGS) (arg_collection ARGS)
            (ready ARGS src tgt clock)
          = (Raise (TypeError "documents must be a non-empty list"),
             ready ARGS src tgt clock)) as Hput.
  { unfold get_put_rows. unfold bind at 1. rewrite Hget. reflexivity. }
  assert (run_script ARGS src tgt clock
          = (Traceback (TypeError "documents must be a non-empty list"),
             ready ARGS src tgt clock)) as Hrun.
  { unfold run_script. rewrite (main_ready _ _ _ _ Hlogin Huri).
    unfold bind at 1. rewrite Hput. reflexivity. }
  repeat split; try assumption. now rewrite Hrun.
Qed.

Lemma empty_table_ends_in_type_error_witness :
  find_table Sample.server "shop" "e" = Some (mkTable "shop" "e" []) /\
  run_script (Sample.args "e") Sample.server Sample.target Sample.clock
  = (Traceback (TypeError "documents must be a non-empty list"),
     ready (Sample.args "e") Sample.server Sample.target Sample.clock) /\
  exit_status
    (run_script (Sample.args "e") Sample.server Sample.target Sample.clock).1 = 1.
Proof.
  split; [reflexivity|].
  destruct (empty_table_ends_in_type_error (Sample.args "e") Sample.server
              Sample.target Sample.clock (mkTable "shop" "e" [])
              eq_refl eq_refl eq_refl eq_refl) as (_ & _ & H3 & H4).
  split; [exact H3 | exact H4].
Defined.

(** C9: when [mariadb.connect] raises a [mariadb.Error], [connect] returns
    normally, having only printed the error; the handle is what it was,
    [None] on a fresh object.  The script goes on: it opens the client, and
    the first use of the handle, [self.connection.cursor()] in
    [get_column_names], raises an AttributeError that ends the run; nothing
    has been written. *)
Theorem connect_failure_is_only_printed
    (ARGS : Args) (src : MariaDB) (tgt : MongoDB) (clock : nat -> DateTime)
    (err : string) :
  login_error src (arg_mariadb ARGS) (arg_sourcedb ARGS) (arg_user ARGS)
    (arg_password ARGS) = Some err ->
  exists s1,
    connect (arg_mariadb ARGS) (arg_sourcedb ARGS) (arg_user ARGS) (arg_password ARGS)
      (init src tgt clock) = (Ok tt, s1) /\
    self_connection s1 = None /\
    stdout s1 = [err] /\
    get_column_names (arg_table ARGS) s1
    = (Raise (AttributeError "'NoneType' object has no attribute 'cursor'"), s1) /\
    (uri_error tgt (arg_mongodb ARGS) = None ->
     exists s2,
       run_script ARGS src tgt clock
       = (Traceback (AttributeError "'NoneType' object has no attribute 'cursor'"), s2) /\
       self_connection s2 = None /\
       self_client s2 = Some (mkMongoClient (arg_mongodb ARGS)) /\
       mongo_server s2 = tgt).
Proof.
  intros Hlogin.
  pose proof (connect_refused _ _ _ _ err (init src tgt clock) Hlogin) as Hconnect.
  exists (print err (init src tgt clock)).2.
  split; [exact Hconnect|]. split; [reflexivity|]. split; [reflexivity|].
  split; [now apply get_column_names_unconnected|].
  intros Huri.
  exists (set_client (Some (mkMongoClient (arg_mongodb ARGS)))
            (print err (init src tgt clock)).2).2.
  split; [|repeat split].
  unfold run_script, main. cbv zeta.
  unfold bind at 1. rewrite Hconnect.
  unfold bind at 1. rewrite open_client_ok by exact Huri.
  unfold bind at 1. unfold get_put_rows. unfold bind at 1.
  unfold get_rows_dict_list. unfold bind at 1.
  rewrite get_column_names_unconnected by reflexivity.
  reflexivity.
Qed.

Lemma connect_failure_is_only_printed_witness :
  login_error Sample.closed_server "localhost" "shop" "u" "p"
  = Some "Access denied for user" /\
  exists s1,
    connect "localhost" "shop" "u" "p"
      (init Sample.closed_server Sample.target Sample.clock) = (Ok tt, s1) /\
    self_connection s1 = None /\
    stdout s1 = ["Access denied for user"] /\
    get_column_names "orders" s1
    = (Raise (AttributeError "'NoneType' object has no attribute 'cursor'"), s1).
Proof.
  split; [reflexivity|].
  destruct (connect_failure_is_only_printed (Sample.args "orders")
              Sample.closed_server Sample.target Sample.clock
              "Access denied for user" eq_refl) as (s1 & H1 & H2 & H3 & H4 & _).
  exists s1. repeat split; assumption.
Defined.

(** A run that goes through: one row of [orders] arrives as one document
    with a generated [_id] and the fields [id], [price], [created]. *)
Example orders_are_copied :
  (run_script (Sample.args "orders") Sample.server Sample.target Sample.clock).1
  = Exited 0 /\
  written (mongo_server
             (run_script (Sample.args "orders") Sample.server Sample.target
                Sample.clock).2)
  = [("copy", "c",
      [("_id", VOther "ObjectId" "oid");
       ("id", VInt 1);
       ("price", VDecimal128 (mkDec128 false [1; 9; 9; 9]%nat (-2)));
       ("created", VDatetime (mkDateTime 2020 8 8 0 0 0 0))])].
Proof. split; reflexivity. Qed.

(** * Further properties *)

(** ** The row loop in full *)

Lemma zip_nil_r {A B} (l : list A) : zip l (@nil B) = [].
Proof. destruct l; reflexivity. Qed.

(** The loop over [range(len(row))] from index [k] on, without any
    assumption on the names: it converts the values for which a name is
    left, then either files them one by one or, when the names have run out
    before the values, raises IndexError. *)
Lemma row_loop_full (col_names : list string) (row : Row) :
  forall (rest : Row) (k : nat) (acc : Document) (s : State),
    drop k row = rest ->
    for_in (seq k (length rest))
      (fun i row_dict =>
         col_name <- getitem col_names i ;;
         value <- getitem row i ;;
         value <- normalize value ;;
         ret (dict_set row_dict col_name value))
      acc s
    = (vs <- normalize_all (take (length col_names - k) rest) ;;
       if (length rest <=? length col_names - k)%nat
       then ret (dict_set_all acc (zip (drop k col_names) vs))
       else raise (IndexError "list index out of range")) s.
Proof.
  induction rest as [|v rest IH]; intros k acc s Hdrop.
  - cbn. rewrite take_nil. cbn. unfold bind, ret. cbn.
    now rewrite zip_nil_r.
  - cbn [length seq for_in].
    assert (row !! k = Some v) as Hv.
    { assert (drop k row !! 0%nat = Some v) as H0 by now rewrite Hdrop.
      rewrite lookup_drop, Nat.add_0_r in H0. exact H0. }
    destruct (col_names !! k) as [ck|] eqn:Hck.
    + pose proof (lookup_lt_Some _ _ _ Hck) as Hlt.
      assert (drop k col_names = ck :: drop (S k) col_names) as Hcols
        by now apply drop_S.
      destruct (length col_names - k)%nat as [|m] eqn:Hm; [lia|].
      assert (length col_names - S k = m)%nat as Hm' by lia.
      unfold bind at 1. rewrite (row_body_step _ _ _ _ _ _ _ Hck Hv).
      cbn [take normalize_all].
      pose proof (fun acc' s1 =>
                    IH (S k) acc' s1
                      ltac:(rewrite (drop_S _ _ _ Hv) in Hdrop;
                            now injection Hdrop)) as IH'.
      rewrite Hm' in IH'.
      unfold bind in *.
      destruct (normalize v s) as [[v'|e] s1]; cbn [ret]; [|reflexivity].
      rewrite IH'.
      destruct (normalize_all (take m rest) s1) as [[vs|e] s2]; [|reflexivity].
      unfold ret. change (S (length rest) <=? S m)%nat with (length rest <=? m)%nat.
      destruct (length rest <=? m)%nat; [|reflexivity].
      rewrite Hcols. reflexivity.
    + pose proof (lookup_ge_None_1 _ _ Hck) as Hge.
      replace (length col_names - k)%nat with 0%nat by lia.
      unfold bind at 1 2. unfold getitem at 1. rewrite Hck. reflexivity.
Qed.

(** [row_to_dict], whatever the names: convert, then file
    [col_names[i] -> value[i]] in order with [d[k] = v], or raise IndexError
    when there are fewer names than values. *)
Lemma row_to_dict_full (col_names : list string) (row : Row) (s : State) :
  row_to_dict col_names row s
  = (vs <- normalize_all (take (length col_names) row) ;;
     if (length row <=? length col_names)%nat
     then ret (dict_set_all [] (zip col_names vs))
     else raise (IndexError "list index out of range")) s.
Proof.
  unfold row_to_dict. rewrite (row_loop_full col_names row row 0 [] s eq_refl).
  now rewrite Nat.sub_0_r.
Qed.

Lemma row_to_dict_ok_inv (col_names : list string) (row : Row) (s s' : State)
    (doc : Document) :
  row_to_dict col_names row s = (Ok doc, s') ->
  (length row <= length col_names)%nat /\
  exists vs, normalize_all row s = (Ok vs, s') /\
             doc = dict_set_all [] (zip col_names vs).
Proof.
  rewrite row_to_dict_full. unfold bind.
  destruct (normalize_all (take (length col_names) row) s) as [[vs|e] s1] eqn:Hall;
    [|discriminate].
  destruct (Nat.leb_spec (length row) (length col_names)) as [Hle|Hgt];
    [|discriminate].
  intros [= <- <-]. split; [exact Hle|].
  rewrite take_ge in Hall by exact Hle. now exists vs.
Qed.

(** ** Dicts *)

Lemma dict_set_keys (d : Document) (k : string) (v : Value) :
  (dict_set d k v).*1 = if decide (k ∈ d.*1) then d.*1 else (d.*1 ++ [k])%list.
Proof.
  induction d as [|[k' v'] d IH]; [reflexivity|].
  cbn [dict_set]. rewrite fmap_cons. cbn [fst].
  destruct (decide (k' = k)) as [->|Hne].
  - rewrite decide_True by apply list_elem_of_here. reflexivity.
  - rewrite fmap_cons, IH. cbn [fst].
    destruct (decide (k ∈ d.*1)) as [Hin|Hnin].
    + rewrite decide_True by now apply list_elem_of_further. reflexivity.
    + rewrite decide_False; [reflexivity|].
      intros [Heq|Hin]%elem_of_cons; [congruence|contradiction].
Qed.

Lemma dict_set_values (P : Value -> Prop) (d : Document) (k : string) (v : Value) :
  Forall P d.*2 -> P v -> Forall P (dict_set d k v).*2.
Proof.
  induction d as [|[k' v'] d IH]; intros Hd Hv.
  - cbn. now constructor.
  - cbn [dict_set]. rewrite fmap_cons in Hd. apply Forall_cons in Hd as [Hv' Hd].
    destruct (decide (k' = k)).
    + rewrite fmap_cons. now constructor.
    + rewrite fmap_cons. constructor; [assumption|]. now apply IH.
Qed.

Lemma dict_get_set_eq (d : Document) (k : string) (v : Value) :
  dict_get (dict_set d k v) k = Some v.
Proof.
  induction d as [|[k' v'] d IH].
  - unfold dict_get. cbn. now rewrite decide_True.
  - cbn [dict_set]. destruct (decide (k' = k)) as [->|Hne].
    + unfold dict_get. cbn. now rewrite decide_True.
    + unfold dict_get in *. cbn. rewrite decide_False by exact Hne.
      destruct (list_find (fun p => p.1 = k) (dict_set d k v)) as [[i [k0 v0]]|];
        cbn in *; congruence.
Qed.

Lemma dict_get_set_ne (d : Document) (k k' : string) (v : Value) :
  k <> k' -> dict_get (dict_set d k v) k' = dict_get d k'.
Proof.
  intros Hne. induction d as [|[k0 v0] d IH].
  - unfold dict_get. cbn. now rewrite decide_False.
  - cbn [dict_set]. destruct (decide (k0 = k)) as [->|Hne0].
    + unfold dict_get. cbn. rewrite !decide_False by exact Hne. reflexivity.
    + unfold dict_get in *. cbn.
      destruct (decide (k0 = k')); [reflexivity|].
      destruct (list_find (fun p => p.1 = k') (dict_set d k v)) as [[i [k1 v1]]|];
        destruct (list_find (fun p => p.1 = k') d) as [[j [k2 v2]]|];
        cbn in *; congruence.
Qed.

Lemma dict_set_all_keys (items : list (string * Value)) :
  forall d : Document,
    NoDup d.*1 ->
    NoDup (dict_set_all d items).*1 /\
    (forall k, k ∈ (dict_set_all d items).*1 <-> k ∈ d.*1 \/ k ∈ items.*1) /\
    (length (dict_set_all d items) <= length d + length items)%nat.
Proof.
  induction items as [|[k v] items IH]; intros d Hd.
  - cbn. split; [assumption|]. split; [|lia].
    intros k. rewrite elem_of_nil. tauto.
  - unfold dict_set_all in *. cbn [fold_left fst snd].
    assert (NoDup (dict_set d k v).*1) as Hd'.
    { rewrite dict_set_keys. destruct (decide (k ∈ d.*1)); [assumption|].
      apply NoDup_app. split; [assumption|]. split.
      - intros x Hx [->|[]%elem_of_nil]%elem_of_cons. contradiction.
      - apply NoDup_singleton. }
    destruct (IH _ Hd') as (Hnd & Hkeys & Hlen). split; [assumption|]. split.
    + intros k'. rewrite Hkeys, dict_set_keys, fmap_cons, elem_of_cons. cbn [fst].
      destruct (decide (k ∈ d.*1)) as [Hin|Hnin].
      * split; [tauto|]. intros [?|[->|?]]; tauto.
      * rewrite elem_of_app, list_elem_of_singleton. tauto.
    + assert (length (dict_set d k v) <= S (length d))%nat.
      { rewrite <- (length_fmap fst (dict_set d k v)), dict_set_keys.
        destruct (decide (k ∈ d.*1)).
        - rewrite length_fmap. lia.
        - rewrite length_app, length_fmap. cbn. lia. }
      cbn [length]. lia.
Qed.

Lemma dict_set_all_values (P : Value -> Prop) (items : list (string * Value)) :
  forall d : Document,
    Forall P d.*2 -> Forall P items.*2 -> Forall P (dict_set_all d items).*2.
Proof.
  induction items as [|[k v] items IH]; intros d Hd Hitems; [assumption|].
  rewrite fmap_cons in Hitems. apply Forall_cons in Hitems as [Hv Hitems].
  unfold dict_set_all in *. cbn [fold_left fst snd].
  apply IH; [|assumption]. now apply dict_set_values.
Qed.

(** After [d[k] = v] for a run of items, a key holds the value of its last
    item. *)
Lemma dict_set_all_last (items1 items2 : list (string * Value)) (d : Document)
    (k : string) (v : Value) :
  k ∉ items2.*1 ->
  dict_get (dict_set_all d (items1 ++ (k, v) :: items2)) k = Some v.
Proof.
  intros Hk. unfold dict_set_all. rewrite fold_left_app. cbn [fold_left fst snd].
  set (d1 := dict_set (fold_left _ items1 d) k v).
  assert (dict_get d1 k = Some v) as Hd1 by apply dict_get_set_eq.
  clearbody d1. revert d1 Hd1.
  induction items2 as [|[k2 v2] items2 IH]; intros d1 Hd1; [exact Hd1|].
  rewrite fmap_cons in Hk. apply not_elem_of_cons in Hk as [Hne Hk].
  cbn [fold_left fst snd]. apply IH; [assumption|].
  rewrite dict_get_set_ne; [assumption|]. cbn in Hne. congruence.
Qed.

Lemma dict_set_in (d : Document) (k0 : string) (v0 : Value) (k : string) (v : Value) :
  (k, v) ∈ dict_set d k0 v0 -> (k, v) ∈ d \/ (k, v) = (k0, v0).
Proof.
  induction d as [|[k1 v1] d IH]; cbn [dict_set].
  - rewrite list_elem_of_singleton. now right.
  - destruct (decide (k1 = k0)) as [->|Hne]; rewrite !elem_of_cons.
    + intros [H|H]; [now right | left; now right].
    + intros [H|H]; [left; now left|].
      destruct (IH H) as [H'|H']; [left; now right | now right].
Qed.

Lemma dict_set_all_in (items : list (string * Value)) :
  forall (d : Document) (k : string) (v : Value),
    (k, v) ∈ dict_set_all d items -> (k, v) ∈ d \/ (k, v) ∈ items.
Proof.
  induction items as [|[k0 v0] items IH]; intros d k v Hin; [now left|].
  unfold dict_set_all in *. cbn [fold_left fst snd] in Hin.
  rewrite elem_of_cons.
  destruct (IH _ _ _ Hin) as [H|H]; [|right; now right].
  destruct (dict_set_in _ _ _ _ _ H) as [H'|H']; [now left | right; now left].
Qed.

Lemma dict_get_in (d : Document) (k : string) (v : Value) :
  dict_get d k = Some v -> (k, v) ∈ d.
Proof.
  unfold dict_get.
  destruct (list_find (fun p => p.1 = k) d) as [[i [k' v']]|] eqn:Hfind; [|discriminate].
  intros [= ->]. apply list_find_Some in Hfind as (Hi & Hk & _).
  cbn in Hk. subst k'. apply list_elem_of_lookup. now exists i.
Qed.

Lemma dict_key_unique (d : Document) (k : string) (v w : Value) :
  NoDup d.*1 -> (k, v) ∈ d -> (k, w) ∈ d -> v = w.
Proof.
  induction d as [|[k1 v1] d IH]; intros Hnd Hv Hw.
  - now apply elem_of_nil in Hv.
  - rewrite fmap_cons in Hnd. apply NoDup_cons in Hnd as [Hk1 Hnd]. cbn in Hk1.
    apply elem_of_cons in Hv as [Hv|Hv]; apply elem_of_cons in Hw as [Hw|Hw].
    + congruence.
    + injection Hv as -> ->. exfalso. apply Hk1.
      apply list_elem_of_fmap. now exists (k1, w).
    + injection Hw as -> ->. exfalso. apply Hk1.
      apply list_elem_of_fmap. now exists (k1, v).
    + now apply IH.
Qed.

(** ** Conversions along a row *)

Lemma normalize_output (v v' : Value) (s s' : State) :
  normalize v s = (Ok v', s') -> relational_only v' = false.
Proof.
  destruct v; try (intros [= <- _]; reflexivity).
  rewrite normalize_decimal. destruct (Decimal128 d); [|discriminate].
  intros [= <- _]. reflexivity.
Qed.

Lemma normalize_reads (v : Value) (s s' : State) (r : Result Value) :
  normalize v s = (r, s') ->
  clock_reads s' = (clock_reads s + count_intervals [v])%nat.
Proof.
  destruct v;
    try (intros [= _ <-];
         match goal with
         | |- context [count_intervals ?l] =>
             let n := eval vm_compute in (count_intervals l) in
             change (count_intervals l) with n
         end; cbn; lia).
  rewrite normalize_decimal. intros [= _ <-].
  change (count_intervals [VDecimal d]) with 0%nat. lia.
Qed.

Lemma count_intervals_cons (v : Value) (row : Row) :
  count_intervals (v :: row) = (count_intervals [v] + count_intervals row)%nat.
Proof.
  unfold count_intervals. rewrite !filter_cons, filter_nil.
  destruct (decide (isinstance v cls_timedelta = true)); reflexivity.
Qed.

Lemma normalize_all_inv (row : Row) :
  forall (s s' : State) (vs : list Value),
    normalize_all row s = (Ok vs, s') ->
    length vs = length row /\
    Forall (fun v' => relational_only v' = false) vs /\
    clock_reads s' = (clock_reads s + count_intervals row)%nat /\
    later s s' /\
    Forall2 (normalized_in s) row vs /\
    (forall i td,
       row !! i = Some (VTimedelta td) ->
       vs !! i
       = Some (VDatetime
                 (utc_clock s (clock_reads s + count_intervals (take i row))))).
Proof.
  induction row as [|v row IH]; intros s s' vs.
  - intros [= <- <-]. repeat split; try constructor; try reflexivity; try lia.
    + cbn. lia.
    + intros i td Hi. discriminate.
  - cbn [normalize_all]. unfold bind.
    destruct (normalize v s) as [[v'|e] s1] eqn:Hv; [|discriminate].
    destruct (normalize_all row s1) as [[vs'|e] s2] eqn:Hrow; [|discriminate].
    intros [= <- <-].
    destruct (IH _ _ _ Hrow) as (Hlen & Hout & Hreads & Hlater & Hrel & Hpos).
    pose proof (normalize_later _ _ _ _ Hv) as Hl1.
    pose proof (normalize_reads _ _ _ _ Hv) as Hr1.
    split; [cbn; lia|]. split.
    { constructor; [|assumption]. eapply normalize_output; exact Hv. }
    split; [rewrite count_intervals_cons; lia|].
    split; [eapply later_trans; eassumption|]. split.
    { constructor.
      - exists s, s1. split; [apply later_refl | exact Hv].
      - eapply Forall2_impl; [exact Hrel|].
        intros x y (sa & sb & Hsa & Hn). exists sa, sb. split; [|exact Hn].
        eapply later_trans; eassumption. }
    intros [|i] td Hi.
    + cbn in Hi. injection Hi as ->. rewrite normalize_timedelta in Hv.
      injection Hv as <- _. cbn. now rewrite Nat.add_0_r.
    + cbn in Hi. change ((v' :: vs') !! S i) with (vs' !! i).
      rewrite (Hpos i td Hi).
      destruct Hl1 as (_ & _ & _ & _ & Hclock & _).
      rewrite Hclock, Hr1. cbn [take].
      rewrite (count_intervals_cons v (take i row)).
      do 3 f_equal. lia.
Qed.

Lemma fst_zip_take {A B} (l : list A) (k : list B) :
  (zip l k).*1 = take (length k) l.
Proof.
  revert k. induction l as [|a l IH]; intros [|b k]; try reflexivity.
  cbn. now rewrite <- IH.
Qed.

Lemma snd_zip_in {A B} (l : list A) (k : list B) (y : B) :
  y ∈ (zip l k).*2 -> y ∈ k.
Proof.
  revert k. induction l as [|a l IH]; intros [|b k]; cbn;
    try (intros []%elem_of_nil).
  rewrite !elem_of_cons. intros [->|Hy]; [now left|right]. now apply IH.
Qed.

(** One row in full, on success. *)
Lemma row_to_dict_ok (col_names : list string) (row : Row) (s s' : State)
    (doc : Document) :
  row_to_dict col_names row s = (Ok doc, s') ->
  (length row <= length col_names)%nat /\
  NoDup doc.*1 /\
  (forall k, k ∈ doc.*1 <-> k ∈ take (length row) col_names) /\
  (length doc <= length row)%nat /\
  Forall (fun v' => relational_only v' = false) doc.*2 /\
  clock_reads s' = (clock_reads s + count_intervals row)%nat /\
  later s s'.
Proof.
  intros Hrow. destruct (row_to_dict_ok_inv _ _ _ _ _ Hrow) as (Hle & vs & Hall & ->).
  destruct (normalize_all_inv _ _ _ _ Hall) as (Hlen & Hout & Hreads & Hlater & _ & _).
  destruct (dict_set_all_keys (zip col_names vs) [] (NoDup_nil_2))
    as (Hnd & Hkeys & Hcount).
  assert ((zip col_names vs).*1 = take (length row) col_names) as Hfst.
  { rewrite <- Hlen. apply fst_zip_take. }
  split; [assumption|]. split; [assumption|]. split.
  - intros k. rewrite Hkeys, Hfst. cbn. rewrite elem_of_nil. tauto.
  - split.
    { cbn in Hcount. rewrite length_zip in Hcount. lia. }
    split; [|split; assumption].
    apply dict_set_all_values; [constructor|].
    eapply Forall_forall. intros x Hx. apply snd_zip_in in Hx.
    eapply Forall_forall in Hout; eassumption.
Qed.

(** ** The table loop *)

Lemma get_rows_dict_list_connected (table_name : string) (s : State) (c : Connection) :
  self_connection s = Some c ->
  get_rows_dict_list table_name s
  = match find_table (mariadb_server s) (conn_database c) table_name with
    | Some tbl =>
        for_in (tbl_rows tbl)
          (fun row rows_dict_list =>
             row_dict <- row_to_dict (catalog_columns (mariadb_server s) table_name) row ;;
             ret (rows_dict_list ++ [row_dict])%list)
          [] s
    | None =>
        (Raise (MariaDBError
                  ("Table '" +:+ conn_database c +:+ "." +:+ table_name
                   +:+ "' doesn't exist")), s)
    end.
Proof.
  intros Hc. unfold get_rows_dict_list.
  unfold bind at 1. rewrite (get_column_names_connected _ _ _ Hc).
  unfold bind at 1. unfold connection_cursor. rewrite Hc.
  unfold bind at 1. unfold execute_select_all.
  destruct (find_table _ _ _); reflexivity.
Qed.

Lemma get_rows_dict_list_unconnected (table_name : string) (s : State) :
  self_connection s = None ->
  get_rows_dict_list table_name s
  = (Raise (AttributeError "'NoneType' object has no attribute 'cursor'"), s).
Proof.
  intros Hc. unfold get_rows_dict_list. unfold bind at 1.
  now rewrite (get_column_names_unconnected _ _ Hc).
Qed.

Lemma rows_loop_ok (col_names : list string) (rows : list Row) :
  forall (acc r : list Document) (s s' : State),
    for_in rows
      (fun row rows_dict_list =>
         row_dict <- row_to_dict col_names row ;;
         ret (rows_dict_list ++ [row_dict])%list)
      acc s
    = (Ok r, s') ->
    exists docs,
      r = (acc ++ docs)%list /\
      later s s' /\
      clock_reads s' = (clock_reads s + sum_list (count_intervals <$> rows))%nat /\
      Forall2 (fun row doc =>
                 exists s1 s2, later s s1 /\
                               row_to_dict col_names row s1 = (Ok doc, s2))
        rows docs.
Proof.
  induction rows as [|row rows IH]; intros acc r s s'.
  - intros [= <- <-]. exists []. rewrite app_nil_r.
    repeat split; try reflexivity; try constructor. cbn. lia.
  - cbn [for_in]. unfold bind at 1 2.
    destruct (row_to_dict col_names row s) as [[doc|e] s1] eqn:Hrow; [|discriminate].
    cbn [ret]. intros Hloop.
    destruct (IH _ _ _ _ Hloop) as (docs & -> & Hl & Hreads & Hdocs).
    destruct (row_to_dict_ok _ _ _ _ _ Hrow) as (_ & _ & _ & _ & _ & Hr1 & Hl1).
    exists (doc :: docs). rewrite <- app_assoc.
    split; [reflexivity|]. split; [eapply later_trans; eassumption|]. split.
    { rewrite fmap_cons.
      change (sum_list (count_intervals row :: (count_intervals <$> rows)))
        with (count_intervals row + sum_list (count_intervals <$> rows))%nat.
      lia. }
    constructor.
    + exists s, s1. split; [apply later_refl | exact Hrow].
    + eapply Forall2_impl; [exact Hdocs|].
      intros x y (sa & sb & Hsa & Hx). exists sa, sb. split; [|exact Hx].
      eapply later_trans; eassumption.
Qed.

Lemma get_rows_dict_list_ok_inv (table_name : string) (s s' : State)
    (docs : list Document) :
  get_rows_dict_list table_name s = (Ok docs, s') ->
  exists c tbl,
    self_connection s = Some c /\
    find_table (mariadb_server s) (conn_database c) table_name = Some tbl /\
    later s s' /\
    clock_reads s'
    = (clock_reads s + sum_list (count_intervals <$> tbl_rows tbl))%nat /\
    Forall2 (fun row doc =>
               exists s1 s2,
                 later s s1 /\
                 row_to_dict (catalog_columns (mariadb_server s) table_name) row s1
                 = (Ok doc, s2))
      (tbl_rows tbl) docs.
Proof.
  intros Hget. destruct (self_connection s) as [c|] eqn:Hc.
  - rewrite (get_rows_dict_list_connected _ _ _ Hc) in Hget.
    destruct (find_table _ _ _) as [tbl|] eqn:Hfind; [|discriminate].
    destruct (rows_loop_ok _ _ _ _ _ _ Hget) as (docs' & Heq & Hl & Hr & Hdocs).
    cbn in Heq. subst docs'. exists c, tbl.
    split; [reflexivity|]. split; [first [reflexivity|assumption]|].
    split; [assumption|]. split; assumption.
  - rewrite (get_rows_dict_list_unconnected _ _ Hc) in Hget. discriminate.
Qed.

(** ** What every extracted document looks like *)

(** X1: whatever the catalog returned, a successful extraction yields one
    document per row of the scanned table, each row had at most as many
    values as there were names, and each document is a proper dict: its
    field names are pairwise distinct, they are exactly the names at the
    row's positions, and it has at most as many fields as the row has
    values. *)
Theorem extracted_documents_are_dicts
    (table_name : string) (s s' : State) (c : Connection) (tbl : Table)
    (docs : list Document) :
  self_connection s = Some c ->
  find_table (mariadb_server s) (conn_database c) table_name = Some tbl ->
  get_rows_dict_list table_name s = (Ok docs, s') ->
  length docs = length (tbl_rows tbl) /\
  Forall2 (fun row doc =>
             (length row <= length (catalog_columns (mariadb_server s) table_name))%nat /\
             NoDup doc.*1 /\
             (forall k, k ∈ doc.*1 <->
                        k ∈ take (length row)
                              (catalog_columns (mariadb_server s) table_name)) /\
             (length doc <= length row)%nat)
    (tbl_rows tbl) docs.
Proof.
  intros Hc Hfind Hget.
  destruct (get_rows_dict_list_ok_inv _ _ _ _ Hget)
    as (c' & tbl' & Hc' & Hfind' & _ & _ & Hdocs).
  rewrite Hc in Hc'. injection Hc' as <-.
  rewrite Hfind in Hfind'. injection Hfind' as <-.
  split; [symmetry; eapply Forall2_length; exact Hdocs|].
  eapply Forall2_impl; [exact Hdocs|].
  intros row doc (s1 & s2 & Hs1 & Hrow).
  destruct Hs1 as (_ & _ & Hsrv & _).
  destruct (row_to_dict_ok _ _ _ _ _ Hrow) as (Hle & Hnd & Hkeys & Hlen & _).
  auto.
Qed.

Lemma extracted_documents_are_dicts_witness :
  get_rows_dict_list "jobs" Fixture.connected
  = (Ok [[("id", VDatetime (Sample.clock 0)); ("took", VDatetime (Sample.clock 1))]],
     (utcnow (utcnow Fixture.connected).2).2) /\
  length [[("id", VDatetime (Sample.clock 0)); ("took", VDatetime (Sample.clock 1))]]
  = length [[VInt 1; VTimedelta Fixture.short; VTimedelta Fixture.long]].
Proof.
  split; [reflexivity|].
  exact (proj1 (extracted_documents_are_dicts "jobs" Fixture.connected _
                  (mkConnection "shop")
                  (mkTable "shop" "jobs"
                     [[VInt 1; VTimedelta Fixture.short; VTimedelta Fixture.long]])
                  _ eq_refl eq_refl eq_refl)).
Defined.

Lemma normalize_converted (v v' : Value) (s s' : State) :
  normalize v s = (Ok v', s') -> converted (utc_clock s) v v'.
Proof.
  destruct v; try (intros [= <- _]; reflexivity).
  - rewrite normalize_decimal.
    destruct (Decimal128 d) as [x|e] eqn:Hx; [|discriminate].
    intros [= <- _]. now exists x.
  - rewrite normalize_timedelta. intros [= <- _]. now exists (clock_reads s).
Qed.

(** X2: every field of every document of a successful extraction holds the
    conversion of the row's value at a position that carries the field's
    name: a [Decimal128] denoting it for a decimal, midnight of its day for
    a date, a reading of the run's clock for an interval, the value itself
    otherwise.  So no field holds a [decimal.Decimal], a plain
    [datetime.date] or a [datetime.timedelta]. *)
Theorem extracted_values_are_converted
    (table_name : string) (s s' : State) (c : Connection) (tbl : Table)
    (docs : list Document) :
  self_connection s = Some c ->
  find_table (mariadb_server s) (conn_database c) table_name = Some tbl ->
  get_rows_dict_list table_name s = (Ok docs, s') ->
  Forall2 (fun row doc =>
             forall name v',
               (name, v') ∈ doc ->
               relational_only v' = false /\
               exists i v,
                 catalog_columns (mariadb_server s) table_name !! i = Some name /\
                 row !! i = Some v /\
                 converted (utc_clock s) v v')
    (tbl_rows tbl) docs.
Proof.
  intros Hc Hfind Hget.
  destruct (get_rows_dict_list_ok_inv _ _ _ _ Hget)
    as (c' & tbl' & Hc' & Hfind' & _ & _ & Hdocs).
  rewrite Hc in Hc'. injection Hc' as <-.
  rewrite Hfind in Hfind'. injection Hfind' as <-.
  eapply Forall2_impl; [exact Hdocs|].
  intros row doc (s1 & s2 & Hs1 & Hrow) name v' Hin.
  destruct (row_to_dict_ok _ _ _ _ _ Hrow) as (_ & _ & _ & _ & Hout & _).
  split.
  { eapply Forall_forall in Hout; [exact Hout|].
    apply list_elem_of_fmap. now exists (name, v'). }
  destruct (row_to_dict_ok_inv _ _ _ _ _ Hrow) as (_ & vs & Hall & ->).
  destruct (normalize_all_inv _ _ _ _ Hall) as (_ & _ & _ & _ & Hrel & _).
  apply dict_set_all_in in Hin as [Hin|Hin]; [now apply elem_of_nil in Hin|].
  apply list_elem_of_lookup in Hin as [i Hi].
  rewrite lookup_zip_with in Hi.
  destruct (catalog_columns (mariadb_server s) table_name !! i) as [k|] eqn:Hk;
    [|discriminate].
  destruct (vs !! i) as [w|] eqn:Hw; [|discriminate].
  cbn in Hi. injection Hi as -> ->.
  destruct (Forall2_lookup_r _ _ _ _ _ Hrel Hw) as (v & Hv & sa & sb & Hsa & Hn).
  exists i, v. split; [exact Hk|]. split; [exact Hv|].
  pose proof (normalize_converted _ _ _ _ Hn) as Hconv.
  destruct Hsa as (_ & _ & _ & _ & Hclk1 & _).
  destruct Hs1 as (_ & _ & _ & _ & Hclk0 & _).
  now rewrite Hclk1, Hclk0 in Hconv.
Qed.

Lemma extracted_values_are_converted_witness :
  Forall2 (fun row doc =>
             forall name v',
               (name, v') ∈ doc ->
               relational_only v' = false /\
               exists i v,
                 ["id"; "price"; "created"] !! i = Some name /\
                 row !! i = Some v /\
                 converted Sample.clock v v')
    [[VInt 1; VDecimal (mkDecimal false [1; 9; 9; 9]%nat (-2));
      VDate (mkDate 2020 8 8)]]
    [[("id", VInt 1);
      ("price", VDecimal128 (mkDec128 false [1; 9; 9; 9]%nat (-2)));
      ("created", VDatetime (mkDateTime 2020 8 8 0 0 0 0))]].
Proof.
  exact (extracted_values_are_converted "orders" Sample.connected Sample.connected
           (mkConnection "shop")
           (mkTable "shop" "orders"
              [[VInt 1; VDecimal (mkDecimal false [1; 9; 9; 9]%nat (-2));
                VDate (mkDate 2020 8 8)]])
           _ eq_refl eq_refl eq_refl).
Defined.

(** ** Repeated names, intervals and short name lists *)

Lemma row_field_last (col_names : list string) (row : Row) (s s' : State)
    (doc : Document) :
  row_to_dict col_names row s = (Ok doc, s') ->
  exists vs,
    normalize_all row s = (Ok vs, s') /\
    forall i name v',
      col_names !! i = Some name ->
      vs !! i = Some v' ->
      (forall j, (i < j < length row)%nat -> col_names !! j <> Some name) ->
      dict_get doc name = Some v'.
Proof.
  intros Hrow. destruct (row_to_dict_ok_inv _ _ _ _ _ Hrow) as (Hle & vs & Hall & ->).
  exists vs. split; [exact Hall|].
  destruct (normalize_all_inv _ _ _ _ Hall) as (Hlen & _).
  intros i name v' Hname Hv' Hlast.
  assert (zip col_names vs !! i = Some (name, v')) as Hi.
  { rewrite lookup_zip_with, Hname, Hv'. reflexivity. }
  rewrite <- (take_drop_middle _ _ _ Hi).
  apply dict_set_all_last.
  intros Hin. apply list_elem_of_fmap in Hin as ([k w] & Hk & Hin).
  cbn in Hk. subst k.
  apply list_elem_of_lookup in Hin as [j Hj].
  rewrite lookup_drop, lookup_zip_with in Hj.
  destruct (col_names !! (S i + j)%nat) as [k|] eqn:Hk; [|discriminate].
  destruct (vs !! (S i + j)%nat) as [w'|] eqn:Hw; [|discriminate].
  cbn in Hj. injection Hj as -> ->.
  apply (Hlast (S i + j)%nat); [|exact Hk].
  apply lookup_lt_Some in Hw. lia.
Qed.

(** X3: when a name is used for several positions of a row, the document
    has one field of that name and it holds the converted value of the
    last such position: field names are pairwise distinct, and whatever the
    document holds under the name is that value, so the values of the
    earlier positions are not in the document under it. *)
Theorem repeated_name_keeps_last_value
    (col_names : list string) (row : Row) (s s' : State) (doc : Document)
    (i : nat) (name : string) (v : Value) :
  row_to_dict col_names row s = (Ok doc, s') ->
  col_names !! i = Some name ->
  row !! i = Some v ->
  (forall j, (i < j < length row)%nat -> col_names !! j <> Some name) ->
  exists v',
    normalized_in s v v' /\
    dict_get doc name = Some v' /\
    NoDup doc.*1 /\
    (forall w, (name, w) ∈ doc <-> w = v').
Proof.
  intros Hrow Hname Hv Hlast.
  destruct (row_field_last _ _ _ _ _ Hrow) as (vs & Hall & Hfield).
  destruct (normalize_all_inv _ _ _ _ Hall) as (_ & _ & _ & _ & Hrel & _).
  destruct (Forall2_lookup_l _ _ _ _ _ Hrel Hv) as (v' & Hv' & Hnorm).
  destruct (row_to_dict_ok _ _ _ _ _ Hrow) as (_ & Hnd & _).
  pose proof (Hfield i name v' Hname Hv' Hlast) as Hget.
  pose proof (dict_get_in _ _ _ Hget) as Hin.
  exists v'. split; [exact Hnorm|]. split; [exact Hget|]. split; [exact Hnd|].
  intros w. split.
  - intros Hw. exact (dict_key_unique _ _ _ _ Hnd Hw Hin).
  - now intros ->.
Qed.

Lemma repeated_name_keeps_last_value_witness :
  exists v',
    normalized_in Fixture.connected (VTimedelta Fixture.short) v' /\
    dict_get [("id", VDatetime (Sample.clock 0)); ("took", VDatetime (Sample.clock 1))]
      "id" = Some v' /\
    NoDup [("id", VDatetime (Sample.clock 0)); ("took", VDatetime (Sample.clock 1))].*1 /\
    (forall w,
       ("id", w) ∈ [("id", VDatetime (Sample.clock 0));
                    ("took", VDatetime (Sample.clock 1))]
       <-> w = v').
Proof.
  refine (repeated_name_keeps_last_value ["id"; "id"; "took"; "wait"]
            [VInt 1; VTimedelta Fixture.short; VTimedelta Fixture.long]
            Fixture.connected _ _ 1 "id" (VTimedelta Fixture.short)
            eq_refl eq_refl eq_refl _).
  intros [|[|[|j]]] Hj; cbn in Hj; try lia. discriminate.
Defined.

(** X4: the intervals of a row take successive readings of the clock, in
    position order: the field of an interval at position [i] holds the
    reading numbered by the count of clock readings before the row plus the
    count of intervals at earlier positions of the row. *)
Theorem intervals_take_successive_readings
    (col_names : list string) (row : Row) (s s' : State) (doc : Document)
    (i : nat) (name : string) (td : Timedelta) :
  row_to_dict col_names row s = (Ok doc, s') ->
  col_names !! i = Some name ->
  row !! i = Some (VTimedelta td) ->
  (forall j, (i < j < length row)%nat -> col_names !! j <> Some name) ->
  dict_get doc name
  = Some (VDatetime (utc_clock s (clock_reads s + count_intervals (take i row)))).
Proof.
  intros Hrow Hname Hv Hlast.
  destruct (row_field_last _ _ _ _ _ Hrow) as (vs & Hall & Hfield).
  destruct (normalize_all_inv _ _ _ _ Hall) as (_ & _ & _ & _ & _ & Hpos).
  apply (Hfield i); [assumption | | assumption].
  now apply (Hpos i td).
Qed.

Lemma intervals_take_successive_readings_witness :
  dict_get [("id", VInt 1); ("took", VDatetime (Sample.clock 0));
            ("wait", VDatetime (Sample.clock 1))] "wait"
  = Some (VDatetime (Sample.clock 1)).
Proof.
  refine (intervals_take_successive_readings ["id"; "took"; "wait"]
            [VInt 1; VTimedelta Fixture.short; VTimedelta Fixture.long]
            Fixture.connected _ _ 2 "wait" Fixture.long
            eq_refl eq_refl eq_refl _).
  intros j Hj. cbn in Hj. lia.
Defined.

(** X5: a successful extraction changes nothing but the clock's count of
    readings, and it reads the clock exactly once per interval value of the
    scanned table. *)
Theorem extraction_reads_clock_once_per_interval
    (table_name : string) (s s' : State) (c : Connection) (tbl : Table)
    (docs : list Document) :
  self_connection s = Some c ->
  find_table (mariadb_server s) (conn_database c) table_name = Some tbl ->
  get_rows_dict_list table_name s = (Ok docs, s') ->
  clock_reads s' = (clock_reads s + sum_list (count_intervals <$> tbl_rows tbl))%nat /\
  later s s'.
Proof.
  intros Hc Hfind Hget.
  destruct (get_rows_dict_list_ok_inv _ _ _ _ Hget)
    as (c' & tbl' & Hc' & Hfind' & Hl & Hreads & _).
  rewrite Hc in Hc'. injection Hc' as <-.
  rewrite Hfind in Hfind'. injection Hfind' as <-.
  now split.
Qed.

Lemma extraction_reads_clock_once_per_interval_witness :
  exists docs s',
    get_rows_dict_list "runs" Fixture.connected = (Ok docs, s') /\
    clock_reads s' = 3%nat.
Proof.
  eexists. eexists. split; [reflexivity|].
  exact (proj1 (extraction_reads_clock_once_per_interval "runs" Fixture.connected _
                  (mkConnection "shop")
                  (mkTable "shop" "runs"
                     [[VInt 1; VTimedelta Fixture.short; VTimedelta Fixture.long];
                      [VInt 2; VNone; VTimedelta Fixture.short]])
                  _ eq_refl eq_refl eq_refl)).
Defined.

(** ** What the extraction leaves alone *)

Lemma quiet_ret {A} (a : A) : quiet (ret a).
Proof. intros s r s' [= <- <-]. split; [apply later_refl|]. discriminate. Qed.

Lemma quiet_raise {A} (e : Exn) : is_error e -> quiet (@raise A e).
Proof.
  intros He s r s' [= <- <-]. split; [apply later_refl|]. now intros e' [= <-].
Qed.

Lemma quiet_bind {A B} (m : Py A) (k : A -> Py B) :
  quiet m -> (forall a, quiet (k a)) -> quiet (bind m k).
Proof.
  intros Hm Hk s r s'. unfold bind.
  destruct (m s) as [[a|e] s1] eqn:Hms.
  - intros Hka. destruct (Hm _ _ _ Hms) as [Hl1 _].
    destruct (Hk a _ _ _ Hka) as [Hl2 He]. split; [|exact He].
    eapply later_trans; eassumption.
  - intros [= <- <-]. destruct (Hm _ _ _ Hms) as [Hl He].
    split; [exact Hl|]. intros e' [= <-]. now apply He.
Qed.

Lemma quiet_for_in {A B} (xs : list A) (body : A -> B -> Py B) :
  (forall x acc, quiet (body x acc)) -> forall acc, quiet (for_in xs body acc).
Proof.
  intros Hbody. induction xs as [|x xs IH]; intros acc.
  - apply quiet_ret.
  - cbn [for_in]. apply quiet_bind; [apply Hbody | exact IH].
Qed.

Lemma quiet_getitem {A} (l : list A) (i : nat) : quiet (getitem l i).
Proof.
  unfold getitem. destruct (l !! i); [apply quiet_ret | now apply quiet_raise].
Qed.

Lemma quiet_normalize (v : Value) : quiet (normalize v).
Proof.
  intros s r s' Hn. split; [eapply normalize_later; exact Hn|].
  intros e ->. destruct v; try discriminate Hn.
  rewrite normalize_decimal in Hn.
  destruct (Decimal128 d) as [x|e'] eqn:Hx; [discriminate|].
  injection Hn as -> _.
  destruct (Decimal128_raises d e Hx) as [[-> | ->] _]; exact I.
Qed.

Lemma quiet_row_to_dict (col_names : list string) (row : Row) :
  quiet (row_to_dict col_names row).
Proof.
  unfold row_to_dict. apply quiet_for_in. intros i acc.
  apply quiet_bind; [apply quiet_getitem|]. intros name.
  apply quiet_bind; [apply quiet_getitem|]. intros v.
  apply quiet_bind; [apply quiet_normalize|]. intros v'. apply quiet_ret.
Qed.

Lemma quiet_connection_cursor : quiet connection_cursor.
Proof.
  intros s r s'. unfold connection_cursor.
  destruct (self_connection s); intros [= <- <-];
    (split; [apply later_refl|]); [discriminate|]. now intros e [= <-].
Qed.

Lemma quiet_get_column_names (table_name : string) : quiet (get_column_names table_name).
Proof.
  unfold get_column_names.
  apply quiet_bind; [apply quiet_connection_cursor|]. intros c.
  apply quiet_bind.
  { intros s r s' [= <- <-]. split; [apply later_refl|]. discriminate. }
  intros rows. apply quiet_bind.
  { apply quiet_for_in. intros row acc.
    apply quiet_bind; [apply quiet_getitem|]. intros name. apply quiet_ret. }
  intros cols. apply quiet_bind; [apply quiet_ret|]. intros _. apply quiet_ret.
Qed.

Lemma quiet_get_rows_dict_list (table_name : string) :
  quiet (get_rows_dict_list table_name).
Proof.
  unfold get_rows_dict_list.
  apply quiet_bind; [apply quiet_get_column_names|]. intros cols.
  apply quiet_bind; [apply quiet_connection_cursor|]. intros c.
  apply quiet_bind.
  { intros s r s'. unfold execute_select_all.
    destruct (find_table _ _ _); intros [= <- <-];
      (split; [apply later_refl|]); [discriminate|]. now intros e [= <-]. }
  intros rows. apply quiet_for_in. intros row acc.
  apply quiet_bind; [apply quiet_row_to_dict|]. intros doc. apply quiet_ret.
Qed.

(** X6: the extraction is read-only.  However it ends, [get_rows_dict_list]
    leaves both handles, both servers and the output as they were (only the
    clock's count of readings moves) and it raises no [SystemExit]; and when
    it raises, [get_put_rows] raises the same exception in the same state,
    so not one document reaches the target unless every row was
    converted. *)
Theorem extraction_is_read_only
    (table_name : string) (s s' : State) (r : Result (list Document)) :
  get_rows_dict_list table_name s = (r, s') ->
  later s s' /\
  mongo_server s' = mongo_server s /\
  forall e, r = Raise e ->
    is_error e /\
    forall db_name collection_name,
      get_put_rows table_name db_name collection_name s = (Raise e, s').
Proof.
  intros Hget. destruct (quiet_get_rows_dict_list _ _ _ _ Hget) as [Hl He].
  split; [exact Hl|]. split; [apply Hl|].
  intros e ->. split; [now apply He|].
  intros db coll. unfold get_put_rows, bind. now rewrite Hget.
Qed.

Lemma extraction_is_read_only_witness :
  later Sample.connected Sample.connected /\
  get_put_rows "big" "copy" "c" Sample.connected
  = (Raise DecimalInexact, Sample.connected).
Proof.
  destruct (extraction_is_read_only "big" Sample.connected Sample.connected
              (Raise DecimalInexact) eq_refl) as (Hl & _ & He).
  split; [exact Hl|]. exact (proj2 (He DecimalInexact eq_refl) "copy" "c").
Defined.

(** ** Fewer names than values *)

Lemma row_to_dict_fits (col_names : list string) (row : Row) (s : State) :
  (length row <= length col_names)%nat ->
  Forall value_fits row ->
  exists doc s', row_to_dict col_names row s = (Ok doc, s').
Proof.
  intros Hle Hfits.
  destruct (normalize_all_fits row s s (later_refl s) Hfits) as (vs & s' & Hall & _).
  rewrite row_to_dict_full, take_ge by exact Hle.
  unfold bind. rewrite Hall.
  destruct (Nat.leb_spec (length row) (length col_names)); [|lia].
  eexists; eexists; reflexivity.
Qed.

Lemma row_to_dict_short (col_names : list string) (row : Row) (s : State) :
  (length col_names < length row)%nat ->
  Forall value_fits row ->
  exists s', row_to_dict col_names row s
             = (Raise (IndexError "list index out of range"), s').
Proof.
  intros Hlt Hfits.
  destruct (normalize_all_fits (take (length col_names) row) s s (later_refl s)
              (Forall_take _ _ _ Hfits)) as (vs & s' & Hall & _).
  rewrite row_to_dict_full. unfold bind. rewrite Hall.
  destruct (Nat.leb_spec (length row) (length col_names)); [lia|].
  eexists; reflexivity.
Qed.

(** X7: when some row of the scanned table has more values than the
    introspection returned names (and the decimals of the table fit
    decimal128), [col_names[i]] runs off the list: the extraction raises
    IndexError and returns no document at all, also not those of the rows
    before. *)
Theorem short_name_list_is_index_error
    (table_name : string) (s : State) (c : Connection) (tbl : Table) :
  self_connection s = Some c ->
  find_table (mariadb_server s) (conn_database c) table_name = Some tbl ->
  Forall (Forall value_fits) (tbl_rows tbl) ->
  Exists (fun row =>
            (length (catalog_columns (mariadb_server s) table_name) < length row)%nat)
    (tbl_rows tbl) ->
  exists s',
    get_rows_dict_list table_name s
    = (Raise (IndexError "list index out of range"), s') /\
    later s s'.
Proof.
  intros Hc Hfind Hfits Hlong.
  assert (forall acc s0,
            exists s',
              for_in (tbl_rows tbl)
                (fun row rows_dict_list =>
                   row_dict <- row_to_dict
                                 (catalog_columns (mariadb_server s) table_name) row ;;
                   ret (rows_dict_list ++ [row_dict])%list)
                acc s0
              = (Raise (IndexError "list index out of range"), s')) as Hloop.
  { induction (tbl_rows tbl) as [|row rows IH]; intros acc s0.
    - now apply Exists_nil in Hlong.
    - apply Forall_cons in Hfits as [Hrow Hrows]. cbn [for_in]. unfold bind at 1 2.
      destruct (Nat.le_gt_cases (length row)
                  (length (catalog_columns (mariadb_server s) table_name)))
        as [Hle|Hgt].
      + destruct (row_to_dict_fits _ _ s0 Hle Hrow) as (doc & s1 & ->). cbn [ret].
        apply IH; [assumption|].
        apply Exists_cons in Hlong as [Hbad|Hrest]; [lia|assumption].
      + destruct (row_to_dict_short _ _ s0 Hgt Hrow) as (s1 & ->). now exists s1. }
  destruct (Hloop [] s) as (s' & Hs'). exists s'.
  assert (get_rows_dict_list table_name s
          = (Raise (IndexError "list index out of range"), s')) as Hget.
  { rewrite (get_rows_dict_list_connected _ _ _ Hc), Hfind. exact Hs'. }
  split; [exact Hget|].
  exact (proj1 (quiet_get_rows_dict_list _ _ _ _ Hget)).
Qed.

Lemma short_name_list_is_index_error_witness :
  exists s',
    get_rows_dict_list "wide" Fixture.connected
    = (Raise (IndexError "list index out of range"), s') /\
    later Fixture.connected s'.
Proof.
  refine (short_name_list_is_index_error "wide" Fixture.connected
            (mkConnection "shop") (mkTable "shop" "wide" [[VInt 1; VInt 2]])
            eq_refl eq_refl _ _).
  - repeat constructor.
  - apply Exists_cons_hd. vm_compute. lia.
Defined.

(** ** Loading and the end of the script *)

Lemma put_rows_accepted (rows : list Document) (db_name collection_name : string)
    (s : State) (cl : MongoClient) :
  self_client s = Some cl ->
  rows <> [] ->
  write_error (mongo_server s) db_name collection_name rows = None ->
  put_rows rows db_name collection_name s
  = (Ok (mkInsertManyResult (length rows)),
     (server_write db_name collection_name rows s).2).
Proof.
  intros Hcl Hrows Hw. unfold put_rows, bind, client_getitem. rewrite Hcl.
  destruct rows as [|d rows]; [contradiction|].
  unfold insert_many. rewrite Hw. reflexivity.
Qed.

Lemma put_rows_rejected (rows : list Document) (db_name collection_name : string)
    (s : State) (cl : MongoClient) (k : nat) (err : string) :
  self_client s = Some cl ->
  rows <> [] ->
  write_error (mongo_server s) db_name collection_name rows = Some (k, err) ->
  put_rows rows db_name collection_name s
  = (Raise (PyMongoError err),
     (server_write db_name collection_name (take k rows) s).2).
Proof.
  intros Hcl Hrows Hw. unfold put_rows, bind, client_getitem. rewrite Hcl.
  destruct rows as [|d rows]; [contradiction|].
  unfold insert_many. rewrite Hw. reflexivity.
Qed.

Lemma put_rows_error (rows : list Document) (db_name collection_name : string)
    (s s' : State) (e : Exn) :
  put_rows rows db_name collection_name s = (Raise e, s') -> is_error e.
Proof.
  unfold put_rows, bind, client_getitem.
  destruct (self_client s); [|now intros [= <- _]].
  destruct rows as [|d rows]; [now intros [= <- _]|].
  unfold insert_many.
  destruct (write_error _ _ _ _) as [[k err]|]; [|discriminate].
  now intros [= <- _].
Qed.

Lemma close_ok (s : State) :
  exists s',
    close s = (Ok tt, s') /\
    self_connection s' = None /\ self_client s' = None /\
    mariadb_server s' = mariadb_server s /\ mongo_server s' = mongo_server s /\
    stdout s' = stdout s.
Proof.
  destruct s as [[c|] [cl|] src tgt clock n out];
    eexists; (split; [reflexivity|]); repeat split.
Qed.

(** X8: [close] is safe in every state because it tests each handle before
    closing it: it never raises, it leaves both handles [None] and
    everything else as it was, and closing again changes nothing.  The two
    methods it calls are not safe on their own: on a handle that is [None],
    [close_connection] and [close_client] raise AttributeError and change
    nothing. *)
Theorem close_clears_both_handles (s : State) :
  (exists s',
     close s = (Ok tt, s') /\
     self_connection s' = None /\ self_client s' = None /\
     mariadb_server s' = mariadb_server s /\ mongo_server s' = mongo_server s /\
     utc_clock s' = utc_clock s /\ clock_reads s' = clock_reads s /\
     stdout s' = stdout s /\
     close s' = (Ok tt, s')) /\
  (self_connection s = None ->
   close_connection s
   = (Raise (AttributeError "'NoneType' object has no attribute 'close'"), s)) /\
  (self_client s = None ->
   close_client s
   = (Raise (AttributeError "'NoneType' object has no attribute 'close'"), s)).
Proof.
  split; [|split].
  - destruct s as [[c|] [cl|] src tgt clock n out];
      eexists; (split; [reflexivity|]); repeat split.
  - intros Hc. unfold close_connection, bind, connection_close. now rewrite Hc.
  - intros Hcl. unfold close_client, bind, client_close. now rewrite Hcl.
Qed.

Lemma close_clears_both_handles_witness :
  self_connection (init Sample.server Sample.target Sample.clock) = None /\
  close_connection (init Sample.server Sample.target Sample.clock)
  = (Raise (AttributeError "'NoneType' object has no attribute 'close'"),
     init Sample.server Sample.target Sample.clock) /\
  close (init Sample.server Sample.target Sample.clock)
  = (Ok tt, init Sample.server Sample.target Sample.clock).
Proof.
  split; [reflexivity|]. split.
  - exact (proj1 (proj2 (close_clears_both_handles
                           (init Sample.server Sample.target Sample.clock)))
             eq_refl).
  - reflexivity.
Defined.

Lemma dict_get_cons_ne (d : Document) (k k1 : string) (v1 : Value) :
  k1 <> k -> dict_get ((k1, v1) :: d) k = dict_get d k.
Proof.
  intros Hne. unfold dict_get. cbn. rewrite decide_False by exact Hne.
  destruct (list_find (fun p => p.1 = k) d) as [[i [k' v']]|]; reflexivity.
Qed.

Lemma dict_del_absent (d : Document) (k : string) :
  dict_get d k = None -> dict_del d k = d.
Proof.
  induction d as [|[k1 v1] d IH]; intros Hget; [reflexivity|].
  destruct (decide (k1 = k)) as [->|Hne].
  - unfold dict_get in Hget. cbn in Hget. rewrite decide_True in Hget by reflexivity.
    discriminate.
  - rewrite (dict_get_cons_ne _ _ _ _ Hne) in Hget.
    unfold dict_del in *. rewrite filter_cons. cbn.
    rewrite decide_True by exact Hne. f_equal. now apply IH.
Qed.

Lemma with_id_stored (doc : Document) (fresh : string) :
  exists id,
    with_id doc fresh = ("_id", id) :: dict_del doc "_id" /\
    (dict_get doc "_id" = None -> dict_del doc "_id" = doc) /\
    (forall v, dict_get doc "_id" = Some v -> id = v).
Proof.
  unfold with_id. destruct (dict_get doc "_id") as [v|] eqn:Hget.
  - exists v. split; [reflexivity|]. split; [discriminate|]. now intros w [= ->].
  - exists (VOther "ObjectId" fresh). rewrite (dict_del_absent _ _ Hget).
    split; [reflexivity|]. split; [reflexivity|]. discriminate.
Qed.

Lemma filed_stored (tgt : MongoDB) (db collection : string) (docs : list Document) :
  Forall2 (fun doc stored =>
             exists id,
               stored = (db, collection, ("_id", id) :: dict_del doc "_id") /\
               (dict_get doc "_id" = None -> dict_del doc "_id" = doc) /\
               (forall v, dict_get doc "_id" = Some v -> id = v))
    docs (filed tgt db collection docs).
Proof.
  unfold filed. generalize (length (written tgt)). intros n.
  revert n. induction docs as [|doc docs IH]; intros n; [constructor|].
  cbn [imap]. constructor.
  - destruct (with_id_stored doc (object_ids tgt (n + 0))) as (id & -> & H1 & H2).
    now exists id.
  - specialize (IH (S n)).
    erewrite imap_ext; [exact IH|].
    intros j d _. cbn. do 3 f_equal. lia.
Qed.

(** X9: when the table name is a plain identifier, the extraction succeeds
    with at least one document and the target accepts the batch, the script
    exits with status 0, both handles are closed, nothing was printed, and
    the target holds what it held before followed by the extracted
    documents, in extraction order, under the target database and
    collection given on the command line, each in the form [insert_many]
    sends it: [_id] first, the document's own if it has one and a generated
    ObjectId if not, then its other fields. *)
Theorem script_files_the_extracted_documents
    (ARGS : Args) (src : MariaDB) (tgt : MongoDB) (clock : nat -> DateTime)
    (docs : list Document) (s1 : State) :
  login_error src (arg_mariadb ARGS) (arg_sourcedb ARGS) (arg_user ARGS)
    (arg_password ARGS) = None ->
  uri_error tgt (arg_mongodb ARGS) = None ->
  plain_identifier (arg_table ARGS) = true ->
  get_rows_dict_list (arg_table ARGS) (ready ARGS src tgt clock) = (Ok docs, s1) ->
  docs <> [] ->
  write_error tgt (arg_targetdb ARGS) (arg_collection ARGS) docs = None ->
  exists sf,
    run_script ARGS src tgt clock = (Exited 0, sf) /\
    self_connection sf = None /\ self_client sf = None /\
    stdout sf = [] /\
    mariadb_server sf = src /\
    written (mongo_server sf)
    = (written tgt
       ++ filed tgt (arg_targetdb ARGS) (arg_collection ARGS) docs)%list /\
    Forall2 (fun doc stored =>
               exists id,
                 stored = (arg_targetdb ARGS, arg_collection ARGS,
                           ("_id", id) :: dict_del doc "_id") /\
                 (dict_get doc "_id" = None -> dict_del doc "_id" = doc) /\
                 (forall v, dict_get doc "_id" = Some v -> id = v))
      docs (filed tgt (arg_targetdb ARGS) (arg_collection ARGS) docs).
Proof.
  intros Hlogin Huri _ Hget Hdocs Hw.
  destruct (quiet_get_rows_dict_list _ _ _ _ Hget)
    as [(Hconn & Hcl & Hsrc & Htgt & _ & Hout & _) _].
  cbn in Hconn, Hcl, Hsrc, Htgt, Hout.
  rewrite <- Htgt in Hw.
  pose proof (put_rows_accepted docs _ _ s1 _ Hcl Hdocs Hw) as Hput.
  set (s2 := (server_write (arg_targetdb ARGS) (arg_collection ARGS) docs s1).2) in *.
  destruct (close_ok s2) as (sf & Hclose & Hc1 & Hc2 & Hc3 & Hc4 & Hc5).
  exists sf. split.
  - unfold run_script. rewrite (main_ready _ _ _ _ Hlogin Huri).
    unfold bind at 1. unfold get_put_rows. unfold bind at 1. rewrite Hget, Hput.
    unfold bind at 1. rewrite Hclose. reflexivity.
  - split; [assumption|]. split; [assumption|].
    split; [rewrite Hc5; exact Hout|].
    split; [rewrite Hc3; exact Hsrc|]. split.
    + rewrite Hc4. subst s2. cbn. rewrite Htgt. reflexivity.
    + apply filed_stored.
Qed.

Lemma script_files_the_extracted_documents_witness :
  exists sf,
    run_script (Sample.args "orders") Sample.server Sample.target Sample.clock
    = (Exited 0, sf) /\
    self_connection sf = None /\ self_client sf = None /\
    stdout sf = [] /\
    mariadb_server sf = Sample.server /\
    written (mongo_server sf)
    = [("copy", "c",
        [("_id", VOther "ObjectId" "oid");
         ("id", VInt 1);
         ("price", VDecimal128 (mkDec128 false [1; 9; 9; 9]%nat (-2)));
         ("created", VDatetime (mkDateTime 2020 8 8 0 0 0 0))])].
Proof.
  destruct (script_files_the_extracted_documents (Sample.args "orders") Sample.server
              Sample.target Sample.clock
              [[("id", VInt 1);
                ("price", VDecimal128 (mkDec128 false [1; 9; 9; 9]%nat (-2)));
                ("created", VDatetime (mkDateTime 2020 8 8 0 0 0 0))]]
              Sample.connected eq_refl eq_refl eq_refl eq_refl
              ltac:(discriminate) eq_refl)
    as (sf & H1 & H2 & H3 & H4 & H5 & H6 & _).
  exists sf. repeat split; assumption.
Defined.

(** X10: when the table name is a plain identifier and the target rejects
    the batch after [k] documents, those [k] stay in the target (each with
    its [_id] first, as [insert_many] sends it), the script ends in a
    traceback (status 1), and [close] is never reached: both handles are
    still open. *)
Theorem rejected_batch_leaves_a_prefix
    (ARGS : Args) (src : MariaDB) (tgt : MongoDB) (clock : nat -> DateTime)
    (docs : list Document) (s1 : State) (k : nat) (err : string) :
  login_error src (arg_mariadb ARGS) (arg_sourcedb ARGS) (arg_user ARGS)
    (arg_password ARGS) = None ->
  uri_error tgt (arg_mongodb ARGS) = None ->
  plain_identifier (arg_table ARGS) = true ->
  get_rows_dict_list (arg_table ARGS) (ready ARGS src tgt clock) = (Ok docs, s1) ->
  docs <> [] ->
  write_error tgt (arg_targetdb ARGS) (arg_collection ARGS) docs = Some (k, err) ->
  exists sf,
    run_script ARGS src tgt clock = (Traceback (PyMongoError err), sf) /\
    exit_status (run_script ARGS src tgt clock).1 = 1 /\
    self_connection sf = Some (mkConnection (arg_sourcedb ARGS)) /\
    self_client sf = Some (mkMongoClient (arg_mongodb ARGS)) /\
    written (mongo_server sf)
    = (written tgt
       ++ filed tgt (arg_targetdb ARGS) (arg_collection ARGS) (take k docs))%list /\
    length (written (mongo_server sf))
    = (length (written tgt) + Nat.min k (length docs))%nat.
Proof.
  intros Hlogin Huri _ Hget Hdocs Hw.
  destruct (quiet_get_rows_dict_list _ _ _ _ Hget)
    as [(Hconn & Hcl & Hsrc & Htgt & _ & Hout & _) _].
  cbn in Hconn, Hcl, Hsrc, Htgt, Hout.
  rewrite <- Htgt in Hw.
  pose proof (put_rows_rejected docs _ _ s1 _ k err Hcl Hdocs Hw) as Hput.
  assert (run_script ARGS src tgt clock
          = (Traceback (PyMongoError err),
             (server_write (arg_targetdb ARGS) (arg_collection ARGS)
                (take k docs) s1).2)) as Hrun.
  { unfold run_script. rewrite (main_ready _ _ _ _ Hlogin Huri).
    unfold bind at 1. unfold get_put_rows. unfold bind at 1. rewrite Hget, Hput.
    reflexivity. }
  eexists. split; [exact Hrun|]. rewrite Hrun.
  split; [reflexivity|]. split; [exact Hconn|]. split; [exact Hcl|].
  cbn. rewrite Htgt. split; [reflexivity|].
  unfold filed. rewrite length_app, length_imap, length_take. reflexivity.
Qed.

Lemma rejected_batch_leaves_a_prefix_witness :
  exists sf,
    run_script (Sample.args "runs") Fixture.server Fixture.strict_target Sample.clock
    = (Traceback (PyMongoError "E11000 duplicate key error"), sf) /\
    exit_status
      (run_script (Sample.args "runs") Fixture.server Fixture.strict_target
         Sample.clock).1 = 1 /\
    self_connection sf = Some (mkConnection "shop") /\
    self_client sf = Some (mkMongoClient "mongodb://localhost") /\
    written (mongo_server sf)
    = [("copy", "c",
        [("_id", VOther "ObjectId" "oid");
         ("id", VInt 1); ("took", VDatetime (Sample.clock 0));
         ("wait", VDatetime (Sample.clock 1))])].
Proof.
  destruct (rejected_batch_leaves_a_prefix (Sample.args "runs") Fixture.server
              Fixture.strict_target Sample.clock _ _ 1
              "E11000 duplicate key error" eq_refl eq_refl eq_refl eq_refl
              ltac:(discriminate) eq_refl)
    as (sf & H1 & H2 & H3 & H4 & H5 & _).
  exists sf. repeat split; assumption.
Defined.

(** X11: once the command line has been parsed, the script never exits with
    status 100.  From [parse_args] on, every run ends either with status 0,
    and then both handles have been closed, or in a traceback of an
    exception other than [SystemExit], with status 1. *)
Theorem script_exit_status
    (ARGS : Args) (src : MariaDB) (tgt : MongoDB) (clock : nat -> DateTime) :
  ((run_script ARGS src tgt clock).1 = Exited 0 /\
   self_connection (run_script ARGS src tgt clock).2 = None /\
   self_client (run_script ARGS src tgt clock).2 = None)
  \/
  (exists e, is_error e /\ (run_script ARGS src tgt clock).1 = Traceback e /\
             exit_status (run_script ARGS src tgt clock).1 = 1).
Proof.
  set (s0 := init src tgt clock).
  assert (exists s1, connect (arg_mariadb ARGS) (arg_sourcedb ARGS) (arg_user ARGS)
                       (arg_password ARGS) s0 = (Ok tt, s1)) as (s1 & Hconnect).
  { destruct (login_error src (arg_mariadb ARGS) (arg_sourcedb ARGS) (arg_user ARGS)
                (arg_password ARGS)) as [err|] eqn:Hlogin.
    - eexists. apply (connect_refused _ _ _ _ err). exact Hlogin.
    - eexists. apply connect_ok. exact Hlogin. }
  assert (exists r sf,
            main ARGS s0 = (r, sf) /\
            ((r = Raise (SystemExit 0) /\
              self_connection sf = None /\ self_client sf = None)
             \/ (exists e, is_error e /\ r = Raise e))) as (r & sf & Hmain & Hr).
  { unfold main. cbv zeta. unfold bind at 1. rewrite Hconnect.
    unfold bind at 1.
    destruct (open_client (arg_mongodb ARGS) s1) as [[[]|e] s2] eqn:Hopen.
    - unfold bind at 1. unfold get_put_rows. unfold bind at 1.
      destruct (get_rows_dict_list (arg_table ARGS) s2) as [[docs|e] s3] eqn:Hget.
      + destruct (put_rows docs (arg_targetdb ARGS) (arg_collection ARGS) s3)
          as [[res|e] s4] eqn:Hput.
        * destruct (close_ok s4) as (sf & Hclose & Hc1 & Hc2 & _).
          unfold bind at 1. rewrite Hclose.
          eexists; eexists; split; [reflexivity|]. left. auto.
        * eexists; eexists; split; [reflexivity|]. right. exists e.
          split; [|reflexivity]. exact (put_rows_error _ _ _ _ _ _ Hput).
      + eexists; eexists; split; [reflexivity|]. right. exists e.
        split; [|reflexivity].
        destruct (quiet_get_rows_dict_list _ _ _ _ Hget) as [_ He]. now apply He.
    - eexists; eexists; split; [reflexivity|]. right. exists e.
      split; [|reflexivity].
      unfold open_client, bind, new_MongoClient in Hopen.
      destruct (uri_error (mongo_server s1) (arg_mongodb ARGS)); [|discriminate].
      now injection Hopen as <- _. }
  unfold run_script. fold s0. rewrite Hmain.
  destruct Hr as [(-> & Hc1 & Hc2) | (e & He & ->)].
  - left. auto.
  - right. exists e. destruct e; try contradiction; cbn; auto.
Qed.
